(** * Kaggle MCP server: credential resolver and competition tools

    A shallow embedding of [src/server.py] ([load_kaggle_config]) and of
    [src/tools/competitions.py] (the seven competition tools), together
    with the fragment of the Python run time they rely on: values,
    truthiness, [str], [getattr], iteration, [json.dumps(..., indent=2)],
    [os.environ] and the file system calls the tools make.

    Conventions.
    - A Python [str] is a Rocq [string]; every character stands for the
      code point of the same number (0..255).  Which strs the
      environment refuses is decided by the filesystem encoding of the
      machine, a parameter of the resolver.
    - Floats do not occur in the value universe.
    - A fault is an instance of [Exception] (what [except Exception]
      catches); it carries its class name and [str(e)].  The faults
      that are not ([KeyboardInterrupt], [SystemExit]) occur in [main]
      only, as a separate way for [mcp.run] to end. *)

From Stdlib Require Import ZArith Ascii String List Bool Lia.
From stdpp Require Import gmap strings list fin_maps pretty.

Open Scope string_scope.
Set Warnings "-register-all".

(** ** Python values *)
Module Py.

Record exn := Exn { exn_class : string; exn_text : string }.

Inductive outcome (A : Type) : Type :=
| Returned (a : A)
| Raised (e : exn).
Arguments Returned {A} a.
Arguments Raised {A} e.

Definition TypeError (msg : string) : exn := Exn "TypeError" msg.
Definition ValueError (msg : string) : exn := Exn "ValueError" msg.

(** What is known of an object that is none of the built-in kinds: its
    class name, [str(o)], [repr(o)] and [bool(o)]. *)
Record objdesc := ObjDesc {
  obj_class : string;
  obj_str : string;
  obj_repr : string;
  obj_truth : bool
}.

Inductive pyval : Type :=
| PNone
| PBool (b : bool)
| PInt (z : Z)
| PStr (s : string)
| PList (items : list pyval)
| PDict (entries : list (string * pyval))   (* insertion ordered, str keys *)
| PObj (o : objdesc) (attrs : list (string * pyval)).

(** First binding of a key, as a dict or an attribute table resolves it. *)
Fixpoint assoc {A : Type} (k : string) (l : list (string * A)) : option A :=
  match l with
  | [] => None
  | (k', a) :: r => if String.eqb k k' then Some a else assoc k r
  end.

Definition keys {A : Type} (l : list (string * A)) : list string := map fst l.

Definition py_type_name (v : pyval) : string :=
  match v with
  | PNone => "NoneType"
  | PBool _ => "bool"
  | PInt _ => "int"
  | PStr _ => "str"
  | PList _ => "list"
  | PDict _ => "dict"
  | PObj o _ => obj_class o
  end.

(** [bool(v)], the test behind [if v] and [not v]. *)
Definition py_truth (v : pyval) : bool :=
  match v with
  | PNone => false
  | PBool b => b
  | PInt z => negb (Z.eqb z 0)
  | PStr s => negb (String.eqb s "")
  | PList items => match items with [] => false | _ => true end
  | PDict entries => match entries with [] => false | _ => true end
  | PObj o _ => obj_truth o
  end.

Definition isinstance_dict (v : pyval) : bool :=
  match v with PDict _ => true | _ => false end.

Definition isinstance_list (v : pyval) : bool :=
  match v with PList _ => true | _ => false end.

(** *** Characters *)

Definition dquote : ascii := "034"%char.
Definition squote : ascii := "039"%char.
Definition backslash : ascii := "092"%char.
Definition newline : ascii := "010"%char.

Definition hex_digit (n : N) : ascii :=
  match n with
  | 0 => "0" | 1 => "1" | 2 => "2" | 3 => "3" | 4 => "4" | 5 => "5"
  | 6 => "6" | 7 => "7" | 8 => "8" | 9 => "9" | 10 => "a" | 11 => "b"
  | 12 => "c" | 13 => "d" | 14 => "e" | _ => "f"
  end%N%char.

Definition hex2 (c : ascii) : string :=
  let n := N_of_ascii c in
  String (hex_digit (n / 16)) (String (hex_digit (n mod 16)) "").

Definition char (c : ascii) : string := String c "".

Fixpoint concat_map (f : ascii -> string) (s : string) : string :=
  match s with
  | "" => ""
  | String c r => f c +:+ concat_map f r
  end.

Fixpoint has_char (c : ascii) (s : string) : bool :=
  match s with
  | "" => false
  | String c' r => Ascii.eqb c c' || has_char c r
  end.

Fixpoint substring_of (p s : string) : bool :=
  String.prefix p s ||
  match s with
  | "" => false
  | String _ r => substring_of p r
  end.

(** *** [repr] and [str] *)

(** Code points 128..255 that [str.isprintable] accepts. *)
Definition printable_latin1 (n : N) : bool :=
  (161 <=? n)%N && negb (n =? 173)%N.

Definition repr_char (quote c : ascii) : string :=
  let n := N_of_ascii c in
  if Ascii.eqb c quote || Ascii.eqb c backslash then String backslash (char c)
  else if (n =? 9)%N then "\t"
  else if (n =? 10)%N then "\n"
  else if (n =? 13)%N then "\r"
  else if (n <? 32)%N || (n =? 127)%N then "\x" +:+ hex2 c
  else if (n <? 127)%N then char c
  else if printable_latin1 n then char c
  else "\x" +:+ hex2 c.

Definition repr_str (s : string) : string :=
  let quote :=
    if has_char squote s && negb (has_char dquote s) then dquote else squote in
  char quote +:+ concat_map (repr_char quote) s +:+ char quote.

Definition join (sep : string) (l : list string) : string := String.concat sep l.

Fixpoint py_repr (v : pyval) : string :=
  match v with
  | PNone => "None"
  | PBool true => "True"
  | PBool false => "False"
  | PInt z => pretty z
  | PStr s => repr_str s
  | PList items => "[" +:+ join ", " (map py_repr items) +:+ "]"
  | PDict entries =>
      "{" +:+
      join ", " (map (fun kv => let '(k, x) := kv in
                                repr_str k +:+ ": " +:+ py_repr x) entries)
      +:+ "}"
  | PObj o _ => obj_repr o
  end.

(** [str(v)]; an f-string field [{v}] renders the same text. *)
Definition py_str (v : pyval) : string :=
  match v with
  | PStr s => s
  | PObj o _ => obj_str o
  | _ => py_repr v
  end.

(** *** Attributes, iteration, membership, subscripts *)

Definition bound_method (name owner : string) : pyval :=
  let text := "<built-in method " +:+ name +:+ " of " +:+ owner +:+ " object>" in
  PObj (ObjDesc "builtin_function_or_method" text text true) [].

(** [getattr(v, name)] for the attribute names the tools read.  Of those
    names only [title] is an attribute of a built-in type ([str.title]). *)
Definition py_getattr (v : pyval) (name : string) : option pyval :=
  match v with
  | PObj _ attrs => assoc name attrs
  | PStr _ => if String.eqb name "title" then Some (bound_method name "str") else None
  | _ => None
  end.

(** [getattr(v, name, default)] *)
Definition getattr (v : pyval) (name : string) (default : pyval) : pyval :=
  match py_getattr v name with
  | Some x => x
  | None => default
  end.

Definition hasattr (v : pyval) (name : string) : bool :=
  match py_getattr v name with
  | Some _ => true
  | None => false
  end.

(** The items a [for] loop visits. *)
Definition py_iter (v : pyval) : outcome (list pyval) :=
  match v with
  | PList items => Returned items
  | PDict entries => Returned (map PStr (keys entries))
  | PStr s => Returned (map (fun c => PStr (char c)) (list_ascii_of_string s))
  | _ => Raised (TypeError ("'" +:+ py_type_name v +:+ "' object is not iterable"))
  end.

Definition is_str (k : string) (v : pyval) : bool :=
  match v with
  | PStr s => String.eqb k s
  | _ => false
  end.

(** [k in v] for a str [k]. *)
Definition py_contains (k : string) (v : pyval) : outcome bool :=
  match v with
  | PDict entries =>
      Returned (match assoc k entries with Some _ => true | None => false end)
  | PList items => Returned (existsb (is_str k) items)
  | PStr s => Returned (substring_of k s)
  | _ => Raised (TypeError ("argument of type '" +:+ py_type_name v
                            +:+ "' is not iterable"))
  end.

(** [v[k]] for a str [k]. *)
Definition py_getitem (v : pyval) (k : string) : outcome pyval :=
  match v with
  | PDict entries =>
      match assoc k entries with
      | Some x => Returned x
      | None => Raised (Exn "KeyError" (repr_str k))
      end
  | PList _ => Raised (TypeError "list indices must be integers or slices, not str")
  | PStr _ => Raised (TypeError "string indices must be integers, not 'str'")
  | _ => Raised (TypeError ("'" +:+ py_type_name v +:+ "' object is not subscriptable"))
  end.

(** *** [json.dumps(v, indent=2)] *)

Definition json_escape_char (c : ascii) : string :=
  let n := N_of_ascii c in
  if Ascii.eqb c dquote then String backslash (char dquote)
  else if Ascii.eqb c backslash then String backslash (char backslash)
  else if (n =? 10)%N then "\n"
  else if (n =? 13)%N then "\r"
  else if (n =? 9)%N then "\t"
  else if (n =? 8)%N then "\b"
  else if (n =? 12)%N then "\f"
  else if (32 <=? n)%N && (n <=? 126)%N then char c
  else "\u00" +:+ hex2 c.

Definition encode_basestring_ascii (s : string) : string :=
  char dquote +:+ concat_map json_escape_char s +:+ char dquote.

Fixpoint spaces (n : nat) : string :=
  match n with
  | O => ""
  | S k => String " " (spaces k)
  end.

Definition newline_indent (level : nat) : string :=
  String newline (spaces (2 * level)).

Definition item_separator (level : nat) : string := "," +:+ newline_indent level.

(** Encode the items in order; the first fault met is the one raised. *)
Definition traverse {A B : Type} (f : A -> outcome B) : list A -> outcome (list B) :=
  fix go (l : list A) : outcome (list B) :=
    match l with
    | [] => Returned []
    | x :: r =>
        match f x with
        | Raised e => Raised e
        | Returned y =>
            match go r with
            | Raised e => Raised e
            | Returned ys => Returned (y :: ys)
            end
        end
    end.

Fixpoint iterencode (level : nat) (v : pyval) : outcome string :=
  match v with
  | PNone => Returned "null"
  | PBool true => Returned "true"
  | PBool false => Returned "false"
  | PInt z => Returned (pretty z)
  | PStr s => Returned (encode_basestring_ascii s)
  | PList [] => Returned "[]"
  | PList items =>
      match traverse (iterencode (S level)) items with
      | Raised e => Raised e
      | Returned chunks =>
          Returned ("[" +:+ newline_indent (S level)
                    +:+ join (item_separator (S level)) chunks
                    +:+ newline_indent level +:+ "]")
      end
  | PDict [] => Returned "{}"
  | PDict entries =>
      match traverse (fun kv => let '(k, x) := kv in
                        match iterencode (S level) x with
                        | Raised e => Raised e
                        | Returned chunk =>
                            Returned (encode_basestring_ascii k +:+ ": " +:+ chunk)
                        end) entries with
      | Raised e => Raised e
      | Returned chunks =>
          Returned ("{" +:+ newline_indent (S level)
                    +:+ join (item_separator (S level)) chunks
                    +:+ newline_indent level +:+ "}")
      end
  | PObj o _ =>
      Raised (TypeError ("Object of type " +:+ obj_class o
                         +:+ " is not JSON serializable"))
  end.

Definition json_dumps (v : pyval) : outcome string := iterencode 0 v.

(** Values [json.dumps] takes: no object of a foreign class anywhere. *)
Fixpoint json_ok (v : pyval) : bool :=
  match v with
  | PList items => forallb json_ok items
  | PDict entries => forallb (fun kv => json_ok kv.2) entries
  | PObj _ _ => false
  | _ => true
  end.

(** [v[k]] of a dict, when there is one. *)
Definition field (k : string) (v : pyval) : option pyval :=
  match v with
  | PDict entries => assoc k entries
  | _ => None
  end.

Definition is_str_or_none (v : pyval) : bool :=
  match v with
  | PStr _ | PNone => true
  | _ => false
  end.

(** *** State and faults *)

(** A computation over a state [S] that returns or raises; effects made
    before a fault stay. *)
Definition M (S A : Type) : Type := S -> outcome A * S.

#[global] Instance M_ret {S : Type} : MRet (M S) :=
  fun A a s => (Returned a, s).

#[global] Instance M_bind {S : Type} : MBind (M S) :=
  fun A B k m s =>
    match m s with
    | (Returned a, s') => k a s'
    | (Raised e, s') => (Raised e, s')
    end.

Definition lift {S A : Type} (o : outcome A) : M S A := fun s => (o, s).

(** [try: body except C as e: handler e], where [catches] tells the
    instances of [C]. *)
Definition try_except_when {S A : Type} (catches : exn -> bool)
    (body : M S A) (handler : exn -> M S A) : M S A :=
  fun s =>
    match body s with
    | (Returned a, s') => (Returned a, s')
    | (Raised e, s') => if catches e then handler e s' else (Raised e, s')
    end.

(** [except Exception] catches every fault of the model. *)
Definition try_except {S A : Type} (body : M S A) (handler : exn -> M S A) : M S A :=
  try_except_when (fun _ => true) body handler.

Definition is_OSError (e : exn) : bool :=
  existsb (String.eqb (exn_class e))
    ["OSError"; "FileNotFoundError"; "FileExistsError"; "PermissionError";
     "NotADirectoryError"; "IsADirectoryError"].

End Py.

(** ** The competition tools ([src/tools/competitions.py]) *)
Module Competitions.
Import Py.

(** Calls into the underlying client [api], with their arguments. *)
Inductive api_call : Type :=
| Api_competitions_list (search category group sort_by : string) (page : Z)
| Api_competition_get (competition : string)
| Api_competition_download_file (competition file_name path : string) (force : bool)
| Api_competition_download_files (competition path : string) (force : bool)
| Api_competition_list_files (competition : string)
| Api_competition_submissions (competition : string)
| Api_competition_leaderboard_view (competition : string)
| Api_competition_submit (file_path message competition : string).

(** The local file system as the tools' own calls see and change it
    ([mkdtemp], [rmtree], [isfile], [getsize], [getmtime]): the
    directories, and the regular files with their size and modification
    time (whole seconds).  The files a download of the client leaves
    under its destination are the client's doing and are not part of it:
    what a tool does to the disk is read off the trace. *)
Record fsys := FS {
  dirs : gset string;
  files : gmap string (Z * Z)
}.

(** What a tool does to its surroundings, in order. *)
Inductive event : Type :=
| Gate
| Call (c : api_call)
| Mkdtemp (r : outcome string)
| Rmtree (path : string)
| IsFile (path : string)
| GetSize (path : string)
| GetMtime (path : string).

Record state := State {
  fs : fsys;
  trace : list event
}.

(** Modelled from the spec: [ensure_authenticated] of [tools/auth.py],
    which is not among the sources.  By its contract (the Authentication
    Gate) it returns [(ok, message)] and never raises; what it answers is
    left open. *)
Definition gate_answer : Type := bool * string.

(** The collaborators of the tools.  [api] is the underlying client:
    every call returns a value or raises (a tool makes at most one call,
    so the answer depends on the call alone).  [mkdtemp] is
    [tempfile.mkdtemp()]: it returns the name of a directory that did
    not exist, or raises ([OSError] when no usable temporary directory is
    found).  [rmtree_removes] tells whether
    [shutil.rmtree(path, ignore_errors=True)] manages to remove the tree;
    it raises in neither case.  What the client itself writes to the
    disk is not followed. *)
Record host := Host {
  ensure_authenticated : gate_answer;
  api : api_call -> outcome pyval;
  mkdtemp : fsys -> outcome string;
  mkdtemp_fresh : forall f d, mkdtemp f = Returned d -> d ∉ dirs f;
  rmtree_removes : bool
}.

(** [p] is [d] or lies below it. *)
Definition under (d p : string) : bool :=
  String.eqb p d || String.prefix (d +:+ "/") p.

Definition remove_tree (d : string) (f : fsys) : fsys :=
  FS (filter (fun p => under d p = false) (dirs f))
     (filter (fun kv => under d kv.1 = false) (files f)).

Definition emit (ev : event) : M state unit :=
  fun s => (Returned tt, State (fs s) (trace s ++ [ev])).

Definition os_path_isfile (path : string) : M state bool :=
  fun s => (Returned (bool_decide (is_Some (files (fs s) !! path))),
            State (fs s) (trace s ++ [IsFile path])).

Definition no_such_file (path : string) : exn :=
  Exn "FileNotFoundError"
      ("[Errno 2] No such file or directory: " +:+ repr_str path).

Definition os_path_getsize (path : string) : M state Z :=
  fun s => (match files (fs s) !! path with
            | Some (size, _) => Returned size
            | None => Raised (no_such_file path)
            end, State (fs s) (trace s ++ [GetSize path])).

Definition os_path_getmtime (path : string) : M state Z :=
  fun s => (match files (fs s) !! path with
            | Some (_, mtime) => Returned mtime
            | None => Raised (no_such_file path)
            end, State (fs s) (trace s ++ [GetMtime path])).

(** [str(v) if v else None] *)
Definition str_if_truthy (v : pyval) : pyval :=
  if py_truth v then PStr (py_str v) else PNone.

(** The dict built for one competition by [competitions_list]. *)
Definition competition_fields : list string :=
  ["ref"; "title"; "url"; "category"; "deadline"; "reward"; "teamCount";
   "userHasEntered"; "description"].

Definition project_competition (comp : pyval) : pyval :=
  let deadline_val := getattr comp "deadline" PNone in
  PDict [("ref", getattr comp "ref" PNone);
         ("title", getattr comp "title" PNone);
         ("url", getattr comp "url" PNone);
         ("category", getattr comp "category" PNone);
         ("deadline", str_if_truthy deadline_val);
         ("reward", getattr comp "reward" PNone);
         ("teamCount", getattr comp "teamCount" PNone);
         ("userHasEntered", getattr comp "userHasEntered" PNone);
         ("description", getattr comp "description" PNone)].

(** The dict built by [competition_details]. *)
Definition project_competition_details (comp : pyval) : pyval :=
  let deadline_val := getattr comp "deadline" PNone in
  PDict [("ref", getattr comp "ref" PNone);
         ("title", getattr comp "title" PNone);
         ("url", getattr comp "url" PNone);
         ("category", getattr comp "category" PNone);
         ("deadline", str_if_truthy deadline_val);
         ("reward", getattr comp "reward" PNone);
         ("teamCount", getattr comp "teamCount" PNone);
         ("userHasEntered", getattr comp "userHasEntered" PNone);
         ("description", getattr comp "description" PNone);
         ("evaluationMetric", getattr comp "evaluationMetric" PNone);
         ("isKernelsSubmissionsOnly", getattr comp "isKernelsSubmissionsOnly" PNone);
         ("tags", getattr comp "tags" (PList []))].

Definition project_file (file_obj : pyval) : pyval :=
  let creation_date_val := getattr file_obj "creationDate" PNone in
  PDict [("name", getattr file_obj "name" PNone);
         ("size", getattr file_obj "size" PNone);
         ("creationDate", str_if_truthy creation_date_val)].

Definition project_submission (sub : pyval) : pyval :=
  let date_val := getattr sub "date" PNone in
  PDict [("ref", getattr sub "ref" PNone);
         ("fileName", getattr sub "fileName" PNone);
         ("date", str_if_truthy date_val);
         ("description", getattr sub "description" PNone);
         ("status", getattr sub "status" PNone);
         ("publicScore", getattr sub "publicScore" PNone);
         ("privateScore", getattr sub "privateScore" PNone)].

Definition project_leaderboard_entry (entry : pyval) : pyval :=
  let submission_date_val := getattr entry "submissionDate" PNone in
  PDict [("teamId", getattr entry "teamId" PNone);
         ("teamName", getattr entry "teamName" PNone);
         ("submissionDate", str_if_truthy submission_date_val);
         ("score", getattr entry "score" PNone);
         ("rank", getattr entry "rank" PNone)].

(** ['submissions' in leaderboard], asked of a dict only. *)
Definition has_key (k : string) (v : pyval) : bool :=
  match v with
  | PDict entries => match assoc k entries with Some _ => true | None => false end
  | _ => false
  end.

Section Tools.
Variable h : host.

Definition gate : M state (bool * string) :=
  emit Gate;; mret (ensure_authenticated h).

Definition call (c : api_call) : M state pyval :=
  emit (Call c);; lift (api h c).

Definition tempfile_mkdtemp : M state string :=
  fun s =>
    let r := mkdtemp h (fs s) in
    (r, State (match r with
               | Returned d => FS ({[d]} ∪ dirs (fs s)) (files (fs s))
               | Raised _ => fs s
               end) (trace s ++ [Mkdtemp r])).

Definition shutil_rmtree (path : string) : M state unit :=
  fun s =>
    (Returned tt,
     State (if rmtree_removes h then remove_tree path (fs s) else fs s)
           (trace s ++ [Rmtree path])).

(** The loop [for x in xs: result.append(project x)] followed by
    [json.dumps(result, indent=2)]. *)
Definition dump_projected (project : pyval -> pyval) (xs : pyval) : M state pyval :=
  items ← lift (py_iter xs);
  text ← lift (json_dumps (PList (map project items)));
  mret (PStr text).

Definition competitions_list (search category group sort_by : string) (page : Z)
    : M state pyval :=
  '(authenticated, msg) ← gate;
  if negb authenticated then mret (PStr msg) else
  try_except
    (competitions ← call (Api_competitions_list search category group sort_by page);
     dump_projected project_competition competitions)
    (fun e => mret (PStr ("Error listing competitions: " +:+ exn_text e))).

Definition competition_details (competition : string) : M state pyval :=
  '(authenticated, msg) ← gate;
  if negb authenticated then mret (PStr msg) else
  try_except
    (comp ← call (Api_competition_get competition);
     text ← lift (json_dumps (project_competition_details comp));
     mret (PStr text))
    (fun e => mret (PStr ("Error getting competition details: " +:+ exn_text e))).

Definition competition_download_files (competition path file_name : string)
    (force : bool) : M state pyval :=
  '(authenticated, msg) ← gate;
  if negb authenticated then mret (PStr msg) else
  '(path, use_temp) ←
     (if negb (py_truth (PStr path))
      then d ← tempfile_mkdtemp; mret (d, true)
      else mret (path, false));
  try_except
    (if py_truth (PStr file_name) then
       call (Api_competition_download_file competition file_name path force);;
       mret (PStr ("Downloaded file '" +:+ file_name +:+ "' to " +:+ path))
     else
       call (Api_competition_download_files competition path force);;
       mret (PStr ("Downloaded all competition files to " +:+ path)))
    (fun e =>
       (if use_temp : bool then
          try_except_when is_OSError (shutil_rmtree path) (fun _ => mret tt)
        else mret tt);;
       mret (PStr ("Error downloading competition files: " +:+ exn_text e))).

Definition competition_list_files (competition : string) : M state pyval :=
  '(authenticated, msg) ← gate;
  if negb authenticated then mret (PStr msg) else
  try_except
    (files ← call (Api_competition_list_files competition);
     dump_projected project_file files)
    (fun e => mret (PStr ("Error listing competition files: " +:+ exn_text e))).

Definition competition_submissions (competition : string) : M state pyval :=
  '(authenticated, msg) ← gate;
  if negb authenticated then mret (PStr msg) else
  try_except
    (submissions ← call (Api_competition_submissions competition);
     dump_projected project_submission submissions)
    (fun e => mret (PStr ("Error listing submissions: " +:+ exn_text e))).

(** The nesting is the source's: the list and string branches sit under
    the test for a dict with a ['submissions'] key. *)
Definition competition_leaderboard (competition : string) : M state pyval :=
  '(authenticated, msg) ← gate;
  if negb authenticated then mret (PStr msg) else
  try_except
    (leaderboard ← call (Api_competition_leaderboard_view competition);
     if isinstance_dict leaderboard && has_key "submissions" leaderboard then
       if isinstance_list leaderboard then
         dump_projected project_leaderboard_entry leaderboard
       else if isinstance_dict leaderboard then
         text ← lift (json_dumps leaderboard); mret (PStr text)
       else
         mret (PStr (py_str leaderboard))
     else
       text ← lift (json_dumps leaderboard); mret (PStr text))
    (fun e => mret (PStr ("Error retrieving leaderboard: " +:+ exn_text e))).

Definition competition_submit (competition file_path message : string)
    : M state pyval :=
  '(authenticated, msg) ← gate;
  if negb authenticated then mret (PStr msg) else
  try_except
    (isfile ← os_path_isfile file_path;
     if negb isfile then mret (PStr ("Error: File not found at " +:+ file_path)) else
     file_size ← os_path_getsize file_path;
     last_modified ← os_path_getmtime file_path;
     response ← call (Api_competition_submit file_path message competition);
     mret (if hasattr response "message" && py_truth (getattr response "message" PNone)
           then getattr response "message" PNone
           else if hasattr response "status" && py_truth (getattr response "status" PNone)
           then PStr ("Submission status: " +:+ py_str (getattr response "status" PNone))
           else PStr "Submission successful."))
    (fun e => mret (PStr ("Error submitting to competition: " +:+ exn_text e))).

(** The registry: a request names a tool and carries its arguments. *)
Inductive invocation : Type :=
| Competitions_list (search category group sort_by : string) (page : Z)
| Competition_details (competition : string)
| Competition_download_files (competition path file_name : string) (force : bool)
| Competition_list_files (competition : string)
| Competition_submissions (competition : string)
| Competition_leaderboard (competition : string)
| Competition_submit (competition file_path message : string).

Definition run (i : invocation) : M state pyval :=
  match i with
  | Competitions_list search category group sort_by page =>
      competitions_list search category group sort_by page
  | Competition_details competition => competition_details competition
  | Competition_download_files competition path file_name force =>
      competition_download_files competition path file_name force
  | Competition_list_files competition => competition_list_files competition
  | Competition_submissions competition => competition_submissions competition
  | Competition_leaderboard competition => competition_leaderboard competition
  | Competition_submit competition file_path message =>
      competition_submit competition file_path message
  end.

End Tools.

(** The client call a download makes for a destination [path]. *)
Definition download_call (competition file_name path : string) (force : bool)
    : api_call :=
  if py_truth (PStr file_name)
  then Api_competition_download_file competition file_name path force
  else Api_competition_download_files competition path force.

Definition download_message (file_name path : string) : string :=
  if py_truth (PStr file_name)
  then "Downloaded file '" +:+ file_name +:+ "' to " +:+ path
  else "Downloaded all competition files to " +:+ path.

(** The requests that make the tool ask for a temporary directory. *)
Definition wants_tmpdir (i : invocation) : bool :=
  match i with
  | Competition_download_files _ path _ _ => negb (py_truth (PStr path))
  | _ => false
  end.

Definition is_call (ev : event) : bool :=
  match ev with
  | Call _ => true
  | _ => false
  end.

End Competitions.

(** ** The credential resolver ([load_kaggle_config] of [src/server.py]) *)
Module Server.
Import Py.

(** A [pathlib.Path], as its components below the root. *)
Abbreviation path := (list string).

Definition path_str (p : path) : string := "/" +:+ join "/" p.

(** What lies at a path that is present on the disk.  [Guarded]: the
    path cannot be examined, [location.exists()] raises (pathlib lets a
    stat fault other than a missing entry through, [PermissionError] for
    one).  [Unreadable]: it exists and [open] raises.  [Malformed]: it
    opens and [json.load] raises.  [Json v]: [json.load] returns [v]. *)
Inductive file : Type :=
| Guarded (e : exn)
| Unreadable (e : exn)
| Malformed (e : exn)
| Json (v : pyval).

Inductive event : Type :=
| Exists (p : path)
| Opened (p : path)
| LogInfo (msg : string)
| LogWarning (msg : string).

(** [os.environ] and what the resolver has done so far. *)
Record state := State {
  environ : gmap string string;
  trace : list event
}.

Definition KAGGLE_USERNAME : string := "KAGGLE_USERNAME".
Definition KAGGLE_KEY : string := "KAGGLE_KEY".

(** The truth value of [os.environ.get(name)]: [None] and [''] are false. *)
Definition env_truthy (o : option string) : bool :=
  match o with
  | Some v => negb (String.eqb v "")
  | None => false
  end.

Definition nul : ascii := "000"%char.

(** [os.environ[name] = v], in the order of [os.py]: [encodevalue]
    wants a str ([TypeError]) and encodes it with the filesystem encoding
    ([UnicodeEncodeError] when the encoding does not take it), then
    [putenv] refuses a NUL character ([ValueError]).  [fsencoding text]
    is what [sys.getfilesystemencoding()] with the [surrogateescape]
    handler makes of [text]: [None] when it encodes, the text of the
    fault otherwise.  It belongs to the machine: UTF-8 refuses a str
    with a lone surrogate that is no escaped byte (JSON can spell one,
    as in ["\ud800"]), ASCII every code point from 128 on. *)
Definition os_environ_set (fsencoding : string -> option string)
    (name : string) (v : pyval) : M state unit :=
  fun s =>
    match v with
    | PStr text =>
        match fsencoding text with
        | Some msg => (Raised (Exn "UnicodeEncodeError" msg), s)
        | None =>
            if has_char nul text then (Raised (ValueError "embedded null byte"), s)
            else (Returned tt, State (<[name := text]> (environ s)) (trace s))
        end
    | _ => (Raised (TypeError ("str expected, not " +:+ py_type_name v)), s)
    end.

Definition emit (ev : event) : M state unit :=
  fun s => (Returned tt, State (environ s) (trace s ++ [ev])).

Definition kaggle_locations (home : path) : list path :=
  [(home ++ [".kaggle"; "kaggle.json"])%list;
   (home ++ [".config"; "kaggle"; "kaggle.json"])%list].

Section Resolver.
Variable fsencoding : string -> option string.
Variable disk : gmap path file.

(** [location.exists()] *)
Definition location_exists (location : path) : M state bool :=
  emit (Exists location);;
  lift (match disk !! location with
        | None => Returned false
        | Some (Guarded e) => Raised e
        | Some _ => Returned true
        end).

(** [with open(location, "r") as f: credentials = json.load(f)] *)
Definition open_and_load (location : path) : M state pyval :=
  emit (Opened location);;
  lift (match disk !! location with
        | Some (Json v) => Returned v
        | Some (Malformed e) => Raised e
        | Some (Unreadable e) => Raised e
        | Some (Guarded e) => Raised e
        | None => Raised (Exn "FileNotFoundError"
                    ("[Errno 2] No such file or directory: "
                     +:+ repr_str (path_str location)))
        end).

(** The body of the loop for a location that exists; [true] is [break]. *)
Definition try_location (location : path) : M state bool :=
  try_except
    (credentials ← open_and_load location;
     has_username ← lift (py_contains "username" credentials);
     has_key ← (if has_username : bool
                then lift (py_contains "key" credentials)
                else mret false);
     if has_key : bool then
       username ← lift (py_getitem credentials "username");
       os_environ_set fsencoding KAGGLE_USERNAME username;;
       key ← lift (py_getitem credentials "key");
       os_environ_set fsencoding KAGGLE_KEY key;;
       emit (LogInfo ("Loaded Kaggle credentials from " +:+ path_str location));;
       mret true
     else mret false)
    (fun e =>
       emit (LogWarning ("Failed to load credentials from " +:+ path_str location
                      +:+ ": " +:+ exn_text e));;
       mret false).

Fixpoint scan (locations : list path) : M state unit :=
  match locations with
  | [] => mret tt
  | location :: rest =>
      found ← location_exists location;
      if found : bool then
        stop ← try_location location;
        if stop : bool then mret tt else scan rest
      else scan rest
  end.

Definition load_kaggle_config (home : path) : M state unit :=
  fun s =>
    if negb (env_truthy (environ s !! KAGGLE_USERNAME))
       || negb (env_truthy (environ s !! KAGGLE_KEY))
    then scan (kaggle_locations home) s
    else (Returned tt, s).

End Resolver.

(** A str [os.environ] takes: the filesystem encoding encodes it and it
    holds no NUL. *)
Definition environ_takes (fsencoding : string -> option string) (text : string)
    : bool :=
  match fsencoding text with
  | None => negb (has_char nul text)
  | Some _ => false
  end.

(** The credentials a candidate yields: a JSON object whose [username]
    and [key] are strs the environment takes. *)
Definition credentials_of (fsencoding : string -> option string)
    (f : option file) : option (string * string) :=
  match f with
  | Some (Json (PDict entries)) =>
      match assoc "username" entries, assoc "key" entries with
      | Some (PStr u), Some (PStr k) =>
          if environ_takes fsencoding u && environ_takes fsencoding k
          then Some (u, k) else None
      | _, _ => None
      end
  | _ => None
  end.

(** A candidate the scan goes past: it can be examined and yields no
    credentials. *)
Definition passed_over (fsencoding : string -> option string)
    (f : option file) : bool :=
  match f with
  | Some (Guarded _) => false
  | _ => match credentials_of fsencoding f with Some _ => false | None => true end
  end.

End Server.

(** ** What the tools answer, tool by tool *)
Module Answers.
Import Py Competitions.

(** The text each tool puts before [str(e)] in its [except] clause. *)
Definition error_prefix (i : invocation) : string :=
  match i with
  | Competitions_list _ _ _ _ _ => "Error listing competitions: "
  | Competition_details _ => "Error getting competition details: "
  | Competition_download_files _ _ _ _ => "Error downloading competition files: "
  | Competition_list_files _ => "Error listing competition files: "
  | Competition_submissions _ => "Error listing submissions: "
  | Competition_leaderboard _ => "Error retrieving leaderboard: "
  | Competition_submit _ _ _ => "Error submitting to competition: "
  end.

(** What a request needs from the local machine before it reaches the
    client: a temporary directory for a download without destination, the
    file to send for a submission. *)
Definition reaches_client (h : host) (i : invocation) (s : state) : Prop :=
  match i with
  | Competition_download_files _ path _ _ =>
      py_truth (PStr path) = false -> exists d, mkdtemp h (fs s) = Returned d
  | Competition_submit _ file_path _ => is_Some (files (fs s) !! file_path)
  | _ => True
  end.

(** [hasattr(v, name) and v.name] is false. *)
Definition lacks (v : pyval) (name : string) : Prop :=
  match py_getattr v name with
  | Some x => py_truth x = false
  | None => True
  end.

Definition competition_detail_fields : list string :=
  ["ref"; "title"; "url"; "category"; "deadline"; "reward"; "teamCount";
   "userHasEntered"; "description"; "evaluationMetric";
   "isKernelsSubmissionsOnly"; "tags"].

Definition file_fields : list string := ["name"; "size"; "creationDate"].

Definition submission_fields : list string :=
  ["ref"; "fileName"; "date"; "description"; "status"; "publicScore";
   "privateScore"].

Definition not_serializable (cls : string) : exn :=
  TypeError ("Object of type " +:+ cls +:+ " is not JSON serializable").

(** The three tools that list records: the call each makes and the
    projection it applies to every record. *)
Definition listing (i : invocation) : option (api_call * (pyval -> pyval)) :=
  match i with
  | Competitions_list search category group sort_by page =>
      Some (Api_competitions_list search category group sort_by page,
            project_competition)
  | Competition_list_files competition =>
      Some (Api_competition_list_files competition, project_file)
  | Competition_submissions competition =>
      Some (Api_competition_submissions competition, project_submission)
  | _ => None
  end.

(** The effects by which a tool itself makes or removes a directory. *)
Definition changes_disk (ev : event) : bool :=
  match ev with
  | Mkdtemp _ | Rmtree _ => true
  | _ => false
  end.

(** The paths a tool itself looks up. *)
Definition looks_up (ev : event) : option string :=
  match ev with
  | IsFile p | GetSize p | GetMtime p => Some p
  | _ => None
  end.

(** The effect sequences a request can leave behind. *)
Inductive shape : list event -> Prop :=
| shape_denied : shape [Gate]
| shape_call c : shape [Gate; Call c]
| shape_no_tmpdir e : shape [Gate; Mkdtemp (Raised e)]
| shape_download d c : shape [Gate; Mkdtemp (Returned d); Call c]
| shape_cleanup d c : shape [Gate; Mkdtemp (Returned d); Call c; Rmtree d]
| shape_no_file p : shape [Gate; IsFile p]
| shape_submit p c : shape [Gate; IsFile p; GetSize p; GetMtime p; Call c].

End Answers.

(** ** The entry point ([main] of [src/server.py]) *)
Module Main.
Import Py.

(** What [main] does besides resolving the credentials. *)
Inductive entry : Type :=
| Starting (msg : string)
| Running (transport : string) (env : gmap string string)
| Failed (msg : string).

(** How [mcp.run(transport=...)] ends: the server stops and the call
    returns; it raises a fault that is an [Exception]; or it is left by
    one that is not ([KeyboardInterrupt], [SystemExit], a cancellation),
    which [except Exception] lets through. *)
Inductive ending : Type :=
| Stopped
| Fault (e : exn)
| Interrupted (e : exn).

Definition has_brace (text : string) : bool :=
  has_char "{" text || has_char "}" text.

(** [logger.error(message, exc_info=True)].  A keyword argument makes
    loguru log [message.format(exc_info=True)].  A text without brace is
    its own format; for the others [str_format] is the interpreter's
    [str.format] with that keyword, which returns the text to log or
    raises ([KeyError], [IndexError], [ValueError]). *)
Definition logger_error (str_format : string -> outcome string)
    (message : string) : outcome string :=
  if has_brace message then str_format message else Returned message.

(** [mcp_run transport env] is [mcp.run(transport=...)] started in the
    environment [env].  The result is the exit code or the fault that
    leaves [main], the resolver's state and the log. *)
Definition main (fsencoding : string -> option string)
    (disk : gmap Server.path Server.file) (home : Server.path)
    (transport : string)
    (mcp_run : string -> gmap string string -> ending)
    (str_format : string -> outcome string)
    (s : Server.state) : outcome Z * Server.state * list entry :=
  match Server.load_kaggle_config fsencoding disk home s with
  | (Raised e, s1) => (Raised e, s1, [])
  | (Returned _, s1) =>
      let started :=
        [Starting ("Starting Kaggle MCP server with " +:+ transport +:+ " transport");
         Running transport (Server.environ s1)] in
      match mcp_run transport (Server.environ s1) with
      | Stopped => (Returned 0%Z, s1, started)
      | Fault e =>
          match logger_error str_format
                  ("Error starting Kaggle MCP server: " +:+ exn_text e) with
          | Returned text => (Returned 1%Z, s1, (started ++ [Failed text])%list)
          | Raised e' => (Raised e', s1, started)
          end
      | Interrupted e => (Raised e, s1, started)
      end
  end.

End Main.

(** ** Kinds of candidate files *)
Module Candidates.
Import Py Server.

(** A value [os.environ] takes: a str the filesystem encoding encodes,
    without NUL. *)
Definition env_takes (fsencoding : string -> option string) (v : pyval) : bool :=
  match v with
  | PStr text => environ_takes fsencoding text
  | _ => false
  end.

(** A candidate that leaves the environment alone: it is missing, cannot
    be opened or parsed, or its JSON value does not lead to a first
    assignment (no object, a field missing, a [username] the environment
    refuses). *)
Definition writes_nothing (fsencoding : string -> option string)
    (f : option file) : bool :=
  match f with
  | Some (Guarded _) => false
  | Some (Json (PDict entries)) =>
      match assoc "username" entries, assoc "key" entries with
      | Some u, Some _ => negb (env_takes fsencoding u)
      | _, _ => true
      end
  | _ => true
  end.

(** The resolver has to scan: one of the two variables is unset or
    empty. *)
Definition must_scan (env : gmap string string) : bool :=
  negb (env_truthy (env !! KAGGLE_USERNAME))
  || negb (env_truthy (env !! KAGGLE_KEY)).

(** [env'] is [env] but for the two variables, and nothing was unset. *)
Definition extends (env env' : gmap string string) : Prop :=
  forall name,
    (name <> KAGGLE_USERNAME -> name <> KAGGLE_KEY -> env' !! name = env !! name)
    /\ (is_Some (env !! name) -> is_Some (env' !! name)).

End Candidates.

(** ** Concrete surroundings, used to run the definitions *)
Module Fixtures.
Import Py.

Definition tmp : string := "/tmp/tmpk3x9q2ab".

(** A [mkdtemp] that hands out [tmp] while it is free. *)
Definition mkdtemp_tmp (f : Competitions.fsys) : outcome string :=
  if decide (tmp ∈ Competitions.dirs f)
  then Raised (Exn "FileExistsError" "No usable temporary directory name found")
  else Returned tmp.

Definition mkdtemp_tmp_fresh (f : Competitions.fsys) (d : string) :
  mkdtemp_tmp f = Returned d -> d ∉ Competitions.dirs f.
Proof. unfold mkdtemp_tmp. case_decide; congruence. Defined.

(** A [mkdtemp] on a host without a writable temporary directory. *)
Definition no_tmpdir : exn :=
  Exn "FileNotFoundError"
      "[Errno 2] No usable temporary directory found in ['/tmp', '/var/tmp', '/usr/tmp', '/app']".

Definition mkdtemp_none (f : Competitions.fsys) : outcome string := Raised no_tmpdir.

Definition mkdtemp_none_fresh (f : Competitions.fsys) (d : string) :
  mkdtemp_none f = Returned d -> d ∉ Competitions.dirs f.
Proof. discriminate. Defined.

Definition host_with (gate : bool * string)
    (client : Competitions.api_call -> outcome pyval) : Competitions.host :=
  Competitions.Host gate client mkdtemp_tmp mkdtemp_tmp_fresh true.

Definition host_without_tmpdir : Competitions.host :=
  Competitions.Host (true, "") (fun _ => Returned PNone)
    mkdtemp_none mkdtemp_none_fresh true.

Definition denied : string :=
  "Not authenticated. Set KAGGLE_USERNAME and KAGGLE_KEY or provide ~/.kaggle/kaggle.json".

Definition boom : exn := Exn "ConnectionError" "remote end closed the connection".

Definition always_raises (c : Competitions.api_call) : outcome pyval := Raised boom.

Definition always_returns (v : pyval) (c : Competitions.api_call) : outcome pyval :=
  Returned v.

Definition empty_fs : Competitions.fsys := Competitions.FS ∅ ∅.

Definition start : Competitions.state := Competitions.State empty_fs [].

Definition a_datetime : pyval :=
  PObj (ObjDesc "datetime" "2030-01-01 23:59:00"
                "datetime.datetime(2030, 1, 1, 23, 59)" true) [].

Definition entity (cls : string) (attrs : list (string * pyval)) : pyval :=
  PObj (ObjDesc cls ("<" +:+ cls +:+ ">") ("<" +:+ cls +:+ ">") true) attrs.

Definition titanic : pyval :=
  entity "Competition"
    [("ref", PStr "titanic"); ("title", PStr "Titanic"); ("url", PStr "https://www.kaggle.com/c/titanic");
     ("category", PStr "Getting Started"); ("deadline", a_datetime);
     ("reward", PStr "Knowledge"); ("teamCount", PInt 15000);
     ("userHasEntered", PBool false); ("description", PStr "Start here!")].

(** A competition without a [reward] attribute. *)
Definition digits : pyval :=
  entity "Competition"
    [("ref", PStr "digit-recognizer"); ("title", PStr "Digit Recognizer");
     ("deadline", a_datetime); ("teamCount", PInt 1200)].

(** A competition whose [reward] is an object of the client library. *)
Definition dated_reward : pyval :=
  entity "Competition" [("ref", PStr "m5"); ("reward", a_datetime)].

(** A competition whose deadline is the epoch, as a number of seconds. *)
Definition epoch_competition : pyval :=
  entity "Competition" [("ref", PStr "first"); ("deadline", PInt 0)].

(** A file whose creation date is the empty string. *)
Definition undated_file : pyval :=
  entity "File" [("name", PStr "train.csv"); ("creationDate", PStr "")].

Definition leaderboard_entry : pyval :=
  entity "LeaderboardEntry"
    [("teamId", PInt 7); ("teamName", PStr "ada"); ("submissionDate", a_datetime);
     ("score", PStr "0.98"); ("rank", PInt 1)].

Definition leaderboard_row : pyval :=
  PDict [("teamId", PInt 7); ("teamName", PStr "ada"); ("score", PStr "0.98")].

Definition leaderboard_csv : string := "teamId,score".

Definition home : Server.path := ["home"; "kaggler"].

Definition first_location : Server.path := ["home"; "kaggler"; ".kaggle"; "kaggle.json"].

Definition second_location : Server.path :=
  ["home"; "kaggler"; ".config"; "kaggle"; "kaggle.json"].

Definition good_credentials : Server.file :=
  Server.Json (PDict [("username", PStr "bob"); ("key", PStr "s3cret")]).


Definition half_numeric_credentials : Server.file :=
  Server.Json (PDict [("username", PStr "bob"); ("key", PInt 5)]).

Definition not_json : Server.file :=
  Server.Malformed (Exn "JSONDecodeError" "Expecting value: line 1 column 1 (char 0)").

Definition disk_first_good : gmap Server.path Server.file :=
  {[ first_location := good_credentials ]}.

Definition disk_second_good : gmap Server.path Server.file :=
  {[ first_location := not_json; second_location := good_credentials ]}.


Definition disk_first_half_numeric : gmap Server.path Server.file :=
  {[ first_location := half_numeric_credentials ]}.

(** Both variables set, the user name to the empty string. *)
Definition env_empty_username : gmap string string :=
  {[ "KAGGLE_USERNAME" := ""; "KAGGLE_KEY" := "k3y" ]}.

Definition env_both : gmap string string :=
  {[ "KAGGLE_USERNAME" := "alice"; "KAGGLE_KEY" := "k3y" ]}.

Definition env_username_only : gmap string string :=
  {[ "KAGGLE_USERNAME" := "alice" ]}.

(** A machine that holds the file to submit. *)
Definition fs_with_submission : Competitions.fsys :=
  Competitions.FS ∅ {[ "/data/submission.csv" := (2048%Z, 1700000000%Z) ]}.

Definition start_with_submission : Competitions.state :=
  Competitions.State fs_with_submission [].

(** What the client answers to a submission: an empty message and a
    status. *)
Definition pending_response : pyval :=
  entity "ApiCreateSubmissionResponse"
    [("message", PStr ""); ("status", PStr "pending")].

Definition accepted_response : pyval :=
  entity "SubmitResult" [("message", PStr "Successfully submitted to Titanic")].

(** A competition whose tags are objects of the client library. *)
Definition tagged_competition : pyval :=
  entity "Competition"
    [("ref", PStr "titanic");
     ("tags", PList [entity "ApiCategory" [("name", PStr "tabular")]])].

Definition train_file : pyval :=
  entity "File" [("name", PStr "train.csv"); ("size", PInt 61194);
                 ("creationDate", a_datetime)].

(** A candidate that cannot be examined. *)
Definition guarded_file : Server.file :=
  Server.Guarded (Exn "PermissionError"
    "[Errno 13] Permission denied: '/home/kaggler/.kaggle/kaggle.json'").

Definition disk_first_guarded : gmap Server.path Server.file :=
  {[ first_location := guarded_file; second_location := good_credentials ]}.

Definition disk_both_good : gmap Server.path Server.file :=
  {[ first_location := good_credentials;
     second_location := Server.Json (PDict [("username", PStr "eve"); ("key", PStr "0ther")]) ]}.

Definition disk_nothing_usable : gmap Server.path Server.file :=
  {[ first_location := not_json;
     second_location := Server.Json (PList [PStr "username"; PStr "key"]) ]}.

Definition stdio_server_fails (transport : string) (env : gmap string string)
    : Main.ending :=
  Main.Fault (Exn "RuntimeError" "stdin is closed").

Definition server_stops (transport : string) (env : gmap string string)
    : Main.ending :=
  Main.Stopped.

(** The server is stopped from the keyboard. *)
Definition server_interrupted (transport : string) (env : gmap string string)
    : Main.ending :=
  Main.Interrupted (Exn "KeyboardInterrupt" "").

(** The server fails with a text that holds a pair of braces. *)
Definition server_fails_with_braces (transport : string) (env : gmap string string)
    : Main.ending :=
  Main.Fault (Exn "ValueError" "unknown settings: {}").

(** [str.format] on a text whose first replacement field is [{}], no
    positional argument being given. *)
Definition format_without_arguments (text : string) : outcome string :=
  Raised (Exn "IndexError"
            "Replacement index 0 out of range for positional args tuple").

(** UTF-8 as filesystem encoding: it takes every str of code points
    below 256. *)
Definition utf8 (text : string) : option string := None.

(** ASCII as filesystem encoding (the C locale without UTF-8 mode): the
    fault names the first run of code points from 128 on. *)
Fixpoint ascii_run (text : string) : nat :=
  match text with
  | String c rest => if (128 <=? N_of_ascii c)%N then S (ascii_run rest) else 0
  | EmptyString => 0
  end.

Fixpoint ascii_from (pos : nat) (text : string) : option string :=
  match text with
  | EmptyString => None
  | String c rest =>
      if (128 <=? N_of_ascii c)%N then
        Some match ascii_run rest with
             | 0 => "'ascii' codec can't encode character '\x" +:+ hex2 c
                    +:+ "' in position " +:+ pretty pos
                    +:+ ": ordinal not in range(128)"
             | S n => "'ascii' codec can't encode characters in position "
                      +:+ pretty pos +:+ "-" +:+ pretty (pos + S n)
                      +:+ ": ordinal not in range(128)"
             end
      else ascii_from (S pos) rest
  end.

Definition ascii_only (text : string) : option string := ascii_from 0 text.

(** A user name with a Latin-1 letter (code point 233). *)
Definition rene : string := "ren" +:+ String "233"%char "".

Definition disk_first_latin1 : gmap Server.path Server.file :=
  {[ first_location :=
       Server.Json (PDict [("username", PStr rene); ("key", PStr "s3cret")]) ]}.

Definition env_path_only : gmap string string := {[ "PATH" := "/usr/bin" ]}.

Definition disk_first_half_second_missing : gmap Server.path Server.file :=
  {[ first_location := half_numeric_credentials ]}.

End Fixtures.

(** * Properties *)

(** ** The competition tools *)
Module CompetitionsSpec.
Import Py Competitions.

#[local] Arguments json_dumps : simpl never.
#[local] Arguments py_iter : simpl never.
#[local] Arguments String.append : simpl never.

Ltac step :=
  unfold run, competitions_list, competition_details, competition_download_files,
    competition_list_files, competition_submissions, competition_leaderboard,
    competition_submit, dump_projected, gate, call, emit, lift,
    tempfile_mkdtemp, shutil_rmtree, os_path_isfile, os_path_getsize,
    os_path_getmtime, try_except, try_except_when, mbind, M_bind, mret, M_ret;
  cbn [fs trace fst snd negb].

Lemma app_trace {A : Type} (l : list A) (a : A) (r : list A) :
  ((l ++ [a]) ++ r = l ++ a :: r)%list.
Proof. by rewrite <- app_assoc. Qed.

(** C3. Every tool calls the authentication gate before it does anything
    else; when the gate answers [(False, msg)] the tool returns [msg] as
    it is, the client is not called and the file system is left alone:
    the gate is the only thing in the trace. *)
Theorem gate_comes_first (h : host) (i : invocation) (s : state) :
  (exists tr, trace (run h i s).2 = (trace s ++ Gate :: tr)%list) /\
  (forall msg, ensure_authenticated h = (false, msg) ->
     run h i s = (Returned (PStr msg), State (fs s) (trace s ++ [Gate]))).
Proof.
  split.
  - destruct i; step; destruct (ensure_authenticated h) as [[] msg]; cbn;
      repeat (case_match; simplify_eq/=);
      rewrite ?app_trace, <- ?app_assoc; cbn; eauto.
  - intros msg Hgate. destruct i; step; rewrite Hgate; reflexivity.
Qed.

Lemma gate_comes_first_witness :
  run (Fixtures.host_with (false, Fixtures.denied) Fixtures.always_raises)
      (Competition_submit "titanic" "/data/submission.csv" "first try")
      Fixtures.start
  = (Returned (PStr Fixtures.denied), State Fixtures.empty_fs [Gate]).
Proof.
  apply (proj2 (gate_comes_first
                  (Fixtures.host_with (false, Fixtures.denied) Fixtures.always_raises)
                  (Competition_submit "titanic" "/data/submission.csv" "first try")
                  Fixtures.start)).
  reflexivity.
Defined.

(** *** Strings *)

Lemma prefix_refl (p : string) : String.prefix p p = true.
Proof.
  induction p as [|c p IH]; [reflexivity|].
  cbn. destruct (ascii_dec c c); [exact IH | congruence].
Qed.

Lemma substring_of_unfold (p t : string) :
  substring_of p t
  = String.prefix p t || match t with "" => false | String _ r => substring_of p r end.
Proof. by destruct t. Qed.

Lemma substring_of_prepend (p d t : string) :
  substring_of d t = true -> substring_of d (p +:+ t) = true.
Proof.
  intros Hd. induction p as [|c p IH]; [exact Hd|].
  rewrite substring_of_unfold.
  change (String c p +:+ t) with (String c (p +:+ t)). cbv beta iota.
  by rewrite IH, orb_true_r.
Qed.

Lemma substring_of_self (d : string) : substring_of d d = true.
Proof. by rewrite substring_of_unfold, prefix_refl. Qed.

Lemma truthy_str (t : string) : t <> "" -> py_truth (PStr t) = true.
Proof. intros Hne. cbn. by apply negb_true_iff, String.eqb_neq. Qed.

Lemma download_message_names (file_name d : string) :
  substring_of d (download_message file_name d) = true.
Proof.
  unfold download_message. destruct (py_truth (PStr file_name));
    repeat apply substring_of_prepend; apply substring_of_self.
Qed.

(** Removing a tree leaves no directory of that name. *)
Lemma remove_tree_gone (d : string) (f : fsys) : d ∉ dirs (remove_tree d f).
Proof.
  unfold remove_tree; cbn. rewrite elem_of_filter. intros [Hunder _].
  unfold under in Hunder. by rewrite String.eqb_refl in Hunder.
Qed.

(** C5. The caller being authenticated and no regular file lying at
    [file_path], the
    submission tool returns ["Error: File not found at " + file_path];
    all it did was ask the gate and test the path: the trace holds no
    call into the client. *)
Theorem submit_missing_file (h : host) (competition file_path message : string)
    (s : state) (msg : string) :
  ensure_authenticated h = (true, msg) ->
  files (fs s) !! file_path = None ->
  competition_submit h competition file_path message s
  = (Returned (PStr ("Error: File not found at " +:+ file_path)),
     State (fs s) (trace s ++ [Gate; IsFile file_path]))
  /\ filter (fun ev => is_call ev = true) [Gate; IsFile file_path] = [].
Proof.
  intros Hgate Hmissing. split; [|reflexivity].
  step. rewrite Hgate; cbn. rewrite Hmissing.
  rewrite bool_decide_eq_false_2 by (intros [? ?]; discriminate).
  cbn. by rewrite <- app_assoc.
Qed.

Lemma submit_missing_file_witness :
  competition_submit (Fixtures.host_with (true, "") Fixtures.always_raises)
      "titanic" "/data/submission.csv" "first try" Fixtures.start
  = (Returned (PStr "Error: File not found at /data/submission.csv"),
     State Fixtures.empty_fs [Gate; IsFile "/data/submission.csv"]).
Proof.
  apply (submit_missing_file
           (Fixtures.host_with (true, "") Fixtures.always_raises)
           "titanic" "/data/submission.csv" "first try" Fixtures.start "").
  - reflexivity.
  - reflexivity.
Defined.

(** C4. The download tool and its destination directory, the caller
    being authenticated.  Without a destination it takes a directory [d] from
    [mkdtemp]: [d] did not exist, it exists afterwards, and on success
    the message names it.  When the download then raises, the tool calls
    [rmtree d] (whose own failure is ignored: the directory is gone
    whenever the removal works) and returns
    ["Error downloading competition files: ..."].  A destination given by
    the caller is never removed: on failure the file system is as it was
    and there is no [Rmtree] in the trace. *)
Theorem download_directory_discipline (h : host) (competition file_name : string)
    (force : bool) (s : state) (msg : string) :
  ensure_authenticated h = (true, msg) ->
  (forall d v,
     mkdtemp h (fs s) = Returned d ->
     api h (download_call competition file_name d force) = Returned v ->
     (d ∉ dirs (fs s)) /\
     competition_download_files h competition "" file_name force s
     = (Returned (PStr (download_message file_name d)),
        State (FS ({[d]} ∪ dirs (fs s)) (files (fs s)))
              (trace s ++ [Gate; Mkdtemp (Returned d);
                           Call (download_call competition file_name d force)])) /\
     substring_of d (download_message file_name d) = true)
  /\
  (forall d e,
     mkdtemp h (fs s) = Returned d ->
     api h (download_call competition file_name d force) = Raised e ->
     let created := FS ({[d]} ∪ dirs (fs s)) (files (fs s)) in
     let text := "Error downloading competition files: " +:+ exn_text e in
     competition_download_files h competition "" file_name force s
     = (Returned (PStr text),
        State (if rmtree_removes h then remove_tree d created else created)
              (trace s ++ [Gate; Mkdtemp (Returned d);
                           Call (download_call competition file_name d force);
                           Rmtree d])) /\
     String.prefix "Error downloading competition files:" text = true /\
     (rmtree_removes h = true ->
      d ∉ dirs (fs (competition_download_files h competition "" file_name force s).2)))
  /\
  (forall path e,
     path <> "" ->
     api h (download_call competition file_name path force) = Raised e ->
     competition_download_files h competition path file_name force s
     = (Returned (PStr ("Error downloading competition files: " +:+ exn_text e)),
        State (fs s)
              (trace s ++ [Gate; Call (download_call competition file_name path force)]))).
Proof.
  intros Hgate. split; [|split].
  - intros d v Hd Hv. split; [by apply (mkdtemp_fresh h)|].
    split; [|apply download_message_names].
    revert Hv. unfold download_call, download_message. step.
    rewrite Hgate; cbn. rewrite Hd; cbn.
    destruct (negb (String.eqb file_name "")); cbn; intros ->; cbn;
      by rewrite <- !app_assoc.
  - intros d e Hd He created text.
    assert (Hrun : competition_download_files h competition "" file_name force s
                   = (Returned (PStr text),
                      State (if rmtree_removes h then remove_tree d created
                             else created)
                            (trace s ++ [Gate; Mkdtemp (Returned d);
                               Call (download_call competition file_name d force);
                               Rmtree d]))).
    { revert He. unfold download_call. step.
      rewrite Hgate; cbn. rewrite Hd; cbn.
      destruct (negb (String.eqb file_name "")); cbn; intros ->; cbn;
        by rewrite <- !app_assoc. }
    split; [exact Hrun|]. split; [reflexivity|].
    intros Hremoves. rewrite Hrun; cbn. rewrite Hremoves.
    apply remove_tree_gone.
  - intros path e Hpath He. revert He. unfold download_call. step.
    rewrite Hgate; cbn.
    pose proof (truthy_str path Hpath) as Htruth. cbn in Htruth. rewrite Htruth; cbn.
    destruct (negb (String.eqb file_name "")); cbn; intros ->; cbn;
      by rewrite <- !app_assoc.
Qed.

Lemma download_directory_discipline_witness :
  competition_download_files (Fixtures.host_with (true, "") (Fixtures.always_returns PNone))
      "titanic" "" "" false Fixtures.start
  = (Returned (PStr ("Downloaded all competition files to " +:+ Fixtures.tmp)),
     State (FS ({[Fixtures.tmp]} ∪ ∅) ∅)
           [Gate; Mkdtemp (Returned Fixtures.tmp);
            Call (Api_competition_download_files "titanic" Fixtures.tmp false)])
  /\
  competition_download_files (Fixtures.host_with (true, "") Fixtures.always_raises)
      "titanic" "" "train.csv" false Fixtures.start
  = (Returned (PStr "Error downloading competition files: remote end closed the connection"),
     State (remove_tree Fixtures.tmp (FS ({[Fixtures.tmp]} ∪ ∅) ∅))
           [Gate; Mkdtemp (Returned Fixtures.tmp);
            Call (Api_competition_download_file "titanic" "train.csv" Fixtures.tmp false);
            Rmtree Fixtures.tmp])
  /\
  competition_download_files (Fixtures.host_with (true, "") Fixtures.always_raises)
      "titanic" "/data" "" true Fixtures.start
  = (Returned (PStr "Error downloading competition files: remote end closed the connection"),
     State Fixtures.empty_fs
           [Gate; Call (Api_competition_download_files "titanic" "/data" true)]).
Proof.
  split; [|split].
  - apply (proj1 (download_directory_discipline
                    (Fixtures.host_with (true, "") (Fixtures.always_returns PNone))
                    "titanic" "" false Fixtures.start "" eq_refl)
                 Fixtures.tmp PNone eq_refl eq_refl).
  - apply (proj1 (proj2 (download_directory_discipline
                    (Fixtures.host_with (true, "") Fixtures.always_raises)
                    "titanic" "train.csv" false Fixtures.start "" eq_refl))
                 Fixtures.tmp Fixtures.boom eq_refl eq_refl).
  - apply (proj2 (proj2 (download_directory_discipline
                    (Fixtures.host_with (true, "") Fixtures.always_raises)
                    "titanic" "" true Fixtures.start "" eq_refl))
                 "/data" Fixtures.boom).
    + discriminate.
    + reflexivity.
Defined.

(** *** Serialization *)

Section PyvalInduction.
Variable P : pyval -> Prop.
Hypothesis HNone : P PNone.
Hypothesis HBool : forall b, P (PBool b).
Hypothesis HInt : forall z, P (PInt z).
Hypothesis HStr : forall t, P (PStr t).
Hypothesis HList : forall items, Forall P items -> P (PList items).
Hypothesis HDict : forall entries, Forall (fun kv => P kv.2) entries -> P (PDict entries).
Hypothesis HObj : forall o attrs, P (PObj o attrs).

Fixpoint pyval_nested_ind (v : pyval) : P v :=
  match v with
  | PNone => HNone
  | PBool b => HBool b
  | PInt z => HInt z
  | PStr t => HStr t
  | PList items =>
      HList items
        ((fix go (l : list pyval) : Forall P l :=
            match l with
            | [] => List.Forall_nil P
            | x :: r => @List.Forall_cons _ P x r (pyval_nested_ind x) (go r)
            end) items)
  | PDict entries =>
      HDict entries
        ((fix go (l : list (string * pyval)) : Forall (fun kv => P kv.2) l :=
            match l with
            | [] => List.Forall_nil _
            | (k, x) :: r =>
                @List.Forall_cons _ (fun kv => P kv.2) (k, x) r
                  (pyval_nested_ind x) (go r)
            end) entries)
  | PObj o attrs => HObj o attrs
  end.
End PyvalInduction.

Lemma traverse_returns {A B : Type} (f : A -> outcome B) (l : list A) :
  Forall (fun x => exists y, f x = Returned y) l ->
  exists ys, traverse f l = Returned ys /\ length ys = length l.
Proof.
  induction 1 as [|x r [y Hy] _ [ys [Hys Hlen]]]; cbn.
  - by exists [].
  - rewrite Hy. cbn in Hys. rewrite Hys. exists (y :: ys). by rewrite <- Hlen.
Qed.

(** [json.dumps] returns on every value free of foreign objects. *)
Lemma json_ok_iterencode (v : pyval) :
  json_ok v = true -> forall level, exists text, iterencode level v = Returned text.
Proof.
  induction v as [| [] | | | items IH | entries IH | ] using pyval_nested_ind;
    cbn [json_ok]; intros Hok level; try (cbn; eauto; fail); try discriminate.
  - destruct items as [|x r]; [cbn; eauto|].
    destruct (traverse_returns (iterencode (S level)) (x :: r)) as [ys [Hys _]].
    { apply Forall_forall. intros y Hy.
      rewrite Forall_forall in IH. apply IH; [done|].
      rewrite forallb_forall in Hok. apply Hok. by apply list_elem_of_In. }
    cbn [iterencode]. rewrite Hys. eauto.
  - destruct entries as [|kv r]; [cbn; eauto|].
    destruct (traverse_returns
                (fun kv => let '(k, x) := kv in
                   match iterencode (S level) x with
                   | Raised e => Raised e
                   | Returned chunk =>
                       Returned (encode_basestring_ascii k +:+ ": " +:+ chunk)
                   end) (kv :: r)) as [ys [Hys _]].
    { apply Forall_forall. intros [k y] Hy.
      rewrite Forall_forall in IH.
      destruct (IH (k, y) Hy) with (level := S level) as [text Htext].
      - rewrite forallb_forall in Hok. apply (Hok (k, y)). by apply list_elem_of_In.
      - cbn in Htext. rewrite Htext. eauto. }
    cbn [iterencode]. rewrite Hys. eauto.
Qed.

Lemma str_if_truthy_json_ok (v : pyval) : json_ok (str_if_truthy v) = true.
Proof. unfold str_if_truthy. by destruct (py_truth v). Qed.

Lemma getattr_absent (v : pyval) (name : string) (default : pyval) :
  py_getattr v name = None -> getattr v name default = default.
Proof. unfold getattr. by intros ->. Qed.

(** *** The leaderboard *)

(** Whatever the client returns, the leaderboard tool hands it to
    [json.dumps]: under the test for a dict with a ['submissions'] key
    the list test fails and the dict test holds. *)
Lemma leaderboard_dumps_raw (h : host) (competition : string) (s : state)
    (msg : string) (raw : pyval) :
  ensure_authenticated h = (true, msg) ->
  api h (Api_competition_leaderboard_view competition) = Returned raw ->
  competition_leaderboard h competition s
  = (Returned (PStr match json_dumps raw with
                    | Returned text => text
                    | Raised e => "Error retrieving leaderboard: " +:+ exn_text e
                    end),
     State (fs s) (trace s ++ [Gate; Call (Api_competition_leaderboard_view competition)])).
Proof.
  intros Hgate Hraw. step. rewrite Hgate; cbn. rewrite Hraw; cbn.
  rewrite <- app_assoc; cbn.
  destruct raw; cbn; repeat (case_match; simplify_eq/=); reflexivity.
Qed.

(** C1 (the code departs from it). The leaderboard tool run on the four
    shapes.  A list of entry objects is not projected: [json.dumps]
    refuses the objects and the tool returns an error text, although the
    projection of the same list serializes.  A list of dicts comes back
    whole, extra keys included.  A dict wrapping ['submissions'] comes
    back whole, not as the list it wraps.  A string comes back quoted and
    escaped, not as it is. *)
Theorem leaderboard_branches_unreached :
  let run_on raw :=
    (competition_leaderboard
       (Fixtures.host_with (true, "") (Fixtures.always_returns raw))
       "titanic" Fixtures.start).1 in
  let dumped v := match json_dumps v with
                  | Returned text => Returned (PStr text)
                  | Raised e => Raised e
                  end in
  run_on (PList [Fixtures.leaderboard_entry])
  = Returned (PStr "Error retrieving leaderboard: Object of type LeaderboardEntry is not JSON serializable")
  /\ (exists text,
        dumped (PList (map project_leaderboard_entry [Fixtures.leaderboard_entry]))
        = Returned (PStr text))
  /\ run_on (PList [Fixtures.leaderboard_row]) = dumped (PList [Fixtures.leaderboard_row])
  /\ dumped (PList [Fixtures.leaderboard_row])
     <> dumped (PList (map project_leaderboard_entry [Fixtures.leaderboard_row]))
  /\ run_on (PDict [("submissions", PList [Fixtures.leaderboard_row])])
     = dumped (PDict [("submissions", PList [Fixtures.leaderboard_row])])
  /\ run_on (PDict [("submissions", PList [Fixtures.leaderboard_row])])
     <> run_on (PList [Fixtures.leaderboard_row])
  /\ run_on (PStr Fixtures.leaderboard_csv)
     = Returned (PStr (encode_basestring_ascii Fixtures.leaderboard_csv))
  /\ encode_basestring_ascii Fixtures.leaderboard_csv <> Fixtures.leaderboard_csv.
Proof.
  cbv zeta. repeat split; try (vm_compute; reflexivity); try (vm_compute; discriminate).
  vm_compute. eexists. reflexivity.
Qed.

(** *** Faults at the boundary *)

(** C2 (the code departs from it). [tempfile.mkdtemp()] is called
    before the [try]: asked to download without a destination on a host
    where no temporary directory can be made, the tool does not return a
    string; the fault of [mkdtemp] crosses its boundary, whatever the
    client would have done (it is never called). *)
Theorem mkdtemp_fault_escapes (h : host) (competition file_name : string)
    (force : bool) (s : state) (msg : string) (e : exn) :
  ensure_authenticated h = (true, msg) ->
  mkdtemp h (fs s) = Raised e ->
  competition_download_files h competition "" file_name force s
  = (Raised e, State (fs s) (trace s ++ [Gate; Mkdtemp (Raised e)])).
Proof.
  intros Hgate Htmp. step. rewrite Hgate; cbn. rewrite Htmp; cbn.
  by rewrite <- app_assoc.
Qed.

Lemma mkdtemp_fault_escapes_witness :
  competition_download_files Fixtures.host_without_tmpdir "titanic" "" "" false
    Fixtures.start
  = (Raised Fixtures.no_tmpdir,
     State Fixtures.empty_fs [Gate; Mkdtemp (Raised Fixtures.no_tmpdir)]).
Proof.
  apply (mkdtemp_fault_escapes Fixtures.host_without_tmpdir "titanic" "" false
           Fixtures.start "" Fixtures.no_tmpdir).
  - reflexivity.
  - reflexivity.
Defined.

(** Everywhere else the tools return, whatever the client does. *)
Lemma tools_return (h : host) (i : invocation) (s : state) :
  (wants_tmpdir i = true -> exists d, mkdtemp h (fs s) = Returned d) ->
  exists v, (run h i s).1 = Returned v.
Proof.
  intros Htmp. destruct i; cbn in Htmp;
    step; destruct (ensure_authenticated h) as [[] msg]; cbn;
    try (destruct (String.eqb path ""); cbn in Htmp |- *;
         [destruct (Htmp eq_refl) as [d ->]; cbn|]);
    repeat (case_match; simplify_eq/=); eauto.
Qed.

(** What they return is a str, the submission tool echoing the client's
    own [message] provided that one is a str. *)
Lemma tools_return_text (h : host) (i : invocation) (s : state) :
  (wants_tmpdir i = true -> exists d, mkdtemp h (fs s) = Returned d) ->
  (forall competition file_path message response,
     i = Competition_submit competition file_path message ->
     api h (Api_competition_submit file_path message competition) = Returned response ->
     py_truth (getattr response "message" PNone) = true ->
     exists text, getattr response "message" PNone = PStr text) ->
  exists text, (run h i s).1 = Returned (PStr text).
Proof.
  intros Htmp Hmessage. destruct i; cbn in Htmp;
    step; destruct (ensure_authenticated h) as [[] msg]; cbn;
    try (destruct (String.eqb path ""); cbn in Htmp |- *;
         [destruct (Htmp eq_refl) as [d ->]; cbn|]);
    repeat (case_match; simplify_eq/=); eauto.
  all: match goal with
       | Hr : api _ _ = Returned ?r |- _ =>
           destruct (Hmessage _ _ _ r eq_refl Hr) as [text Htext];
             [by eapply andb_prop | rewrite Htext; eauto]
       end.
Qed.

(** *** Projection *)

Ltac in_fields :=
  apply list_elem_of_In; cbn; tauto.

Lemma project_competition_json_ok (comp : pyval) :
  (forall name, name ∈ competition_fields -> name <> "deadline" ->
     json_ok (getattr comp name PNone) = true) ->
  json_ok (project_competition comp) = true.
Proof.
  intros Hok. cbn [project_competition json_ok forallb snd].
  rewrite str_if_truthy_json_ok.
  rewrite !Hok by (in_fields || discriminate). reflexivity.
Qed.

Lemma competitions_list_unfolds (h : host) (search category group sort_by : string)
    (page : Z) (s : state) (msg : string) (comps : list pyval) :
  ensure_authenticated h = (true, msg) ->
  api h (Api_competitions_list search category group sort_by page)
  = Returned (PList comps) ->
  competitions_list h search category group sort_by page s
  = (Returned (PStr match json_dumps (PList (map project_competition comps)) with
                    | Returned text => text
                    | Raised e => "Error listing competitions: " +:+ exn_text e
                    end),
     State (fs s)
           (trace s ++ [Gate; Call (Api_competitions_list search category group
                                      sort_by page)])).
Proof.
  intros Hgate Hraw. step. rewrite Hgate; cbn. rewrite Hraw; cbn.
  rewrite <- app_assoc; cbn.
  unfold py_iter. by destruct (json_dumps _).
Qed.

(** C8 as stated fails: of three records one keeps a value [json.dumps]
    refuses (its [reward] is a [datetime]); the list built has three
    records, yet what the tool returns is an error line, not a list. *)
Lemma unserializable_value_spoils_list :
  let comps := [Fixtures.titanic; Fixtures.dated_reward; Fixtures.titanic] in
  let h := Fixtures.host_with (true, "") (Fixtures.always_returns (PList comps)) in
  length (map project_competition comps) = 3
  /\ (competitions_list h "" "all" "general" "latestDeadline" 1 Fixtures.start).1
     = Returned (PStr ("Error listing competitions: "
                       +:+ "Object of type datetime is not JSON serializable")).
Proof. vm_compute. split; reflexivity. Qed.

(** C8, amended. [competitions_list] on a list of [N] records.  The list
    handed to [json.dumps] has [N] records, each a dict whose keys are
    the nine fixed names in their fixed order; a name the raw record
    lacks comes out as [None] and nothing raises; a name it has keeps
    its value ([deadline] is rendered [str(v) if v else None]).  When
    the values kept as they are serialize, the tool returns the text of
    that list, the same text from whatever state the call starts. *)
Theorem competitions_list_projection (h : host)
    (search category group sort_by : string) (page : Z) (s : state)
    (msg : string) (comps : list pyval) :
  ensure_authenticated h = (true, msg) ->
  api h (Api_competitions_list search category group sort_by page)
  = Returned (PList comps) ->
  let result := map project_competition comps in
  length result = length comps
  /\ Forall (fun r => exists entries,
               r = PDict entries /\ keys entries = competition_fields) result
  /\ (forall comp name,
        name ∈ competition_fields -> py_getattr comp name = None ->
        field name (project_competition comp) = Some PNone)
  /\ (forall comp name v,
        name ∈ competition_fields -> py_getattr comp name = Some v ->
        field name (project_competition comp)
        = Some (if String.eqb name "deadline" then str_if_truthy v else v))
  /\ (competitions_list h search category group sort_by page s).1
     = Returned (PStr match json_dumps (PList result) with
                      | Returned text => text
                      | Raised e => "Error listing competitions: " +:+ exn_text e
                      end)
  /\ (Forall (fun comp => forall name,
                name ∈ competition_fields -> name <> "deadline" ->
                json_ok (getattr comp name PNone) = true) comps ->
      exists text,
        json_dumps (PList result) = Returned text
        /\ forall s',
             competitions_list h search category group sort_by page s'
             = (Returned (PStr text),
                State (fs s')
                      (trace s' ++ [Gate; Call (Api_competitions_list search category
                                                  group sort_by page)]))).
Proof.
  intros Hgate Hraw result. repeat apply conj.
  - apply length_map.
  - apply Forall_forall. intros r Hr.
    apply list_elem_of_fmap in Hr as [comp [-> _]]. eexists. split; reflexivity.
  - intros comp name Hname Habsent.
    apply list_elem_of_In in Hname. cbn in Hname.
    unfold project_competition, str_if_truthy.
    repeat (destruct Hname as [<- | Hname];
            [rewrite !(getattr_absent _ _ _ Habsent); reflexivity|]).
    destruct Hname.
  - intros comp name v Hname Hpresent.
    apply list_elem_of_In in Hname. cbn in Hname.
    unfold project_competition, getattr.
    repeat (destruct Hname as [<- | Hname];
            [cbn; by rewrite Hpresent|]).
    destruct Hname.
  - by rewrite (competitions_list_unfolds h _ _ _ _ _ s msg comps).
  - intros Hok.
    destruct (json_ok_iterencode (PList result)) with (level := 0%nat)
      as [text Htext].
    { cbn [json_ok].
      apply forallb_forall. intros r Hr. apply in_map_iff in Hr as [comp [<- Hcomp]].
      apply project_competition_json_ok.
      rewrite Forall_forall in Hok. apply Hok. by apply list_elem_of_In. }
    exists text. split; [exact Htext|]. intros s'.
    rewrite (competitions_list_unfolds h _ _ _ _ _ s' msg comps Hgate Hraw).
    fold result. unfold json_dumps. by rewrite Htext.
Qed.

Lemma competitions_list_projection_witness :
  length (map project_competition [Fixtures.titanic; Fixtures.digits; Fixtures.titanic]) = 3
  /\ field "reward" (project_competition Fixtures.digits) = Some PNone
  /\ field "reward" (project_competition Fixtures.titanic) = Some (PStr "Knowledge")
  /\ field "deadline" (project_competition Fixtures.titanic)
     = Some (PStr "2030-01-01 23:59:00")
  /\ exists text,
       json_dumps (PList (map project_competition
                            [Fixtures.titanic; Fixtures.digits; Fixtures.titanic]))
       = Returned text
       /\ (competitions_list
             (Fixtures.host_with (true, "")
                (Fixtures.always_returns
                   (PList [Fixtures.titanic; Fixtures.digits; Fixtures.titanic])))
             "" "all" "general" "latestDeadline" 1 Fixtures.start).1
          = Returned (PStr text).
Proof.
  destruct (competitions_list_projection
              (Fixtures.host_with (true, "")
                 (Fixtures.always_returns
                    (PList [Fixtures.titanic; Fixtures.digits; Fixtures.titanic])))
              "" "all" "general" "latestDeadline" 1 Fixtures.start ""
              [Fixtures.titanic; Fixtures.digits; Fixtures.titanic]
              eq_refl eq_refl) as (Hlen & _ & Hnull & Hpresent & _ & Hdump).
  split; [exact Hlen|]. split; [|split; [|split]].
  - apply Hnull; [in_fields | reflexivity].
  - apply (Hpresent Fixtures.titanic "reward" (PStr "Knowledge"));
      [in_fields | reflexivity].
  - apply (Hpresent Fixtures.titanic "deadline" Fixtures.a_datetime);
      [in_fields | reflexivity].
  - destruct Hdump as (text & Htext & Hrun).
    + repeat constructor; intros name Hname Hne;
        apply list_elem_of_In in Hname; cbn in Hname;
        repeat (destruct Hname as [<- | Hname]; [reflexivity || congruence|]);
        destruct Hname.
    + exists text. split; [exact Htext|]. by rewrite Hrun.
Defined.

(** C9 as stated fails: a deadline that is present and falsy (the epoch
    as a number of seconds, an empty string for a creation date) comes
    out as [None], not as its string form. *)
Lemma falsy_date_rendered_null :
  py_getattr Fixtures.epoch_competition "deadline" = Some (PInt 0)
  /\ field "deadline" (project_competition Fixtures.epoch_competition) = Some PNone
  /\ field "deadline" (project_competition Fixtures.epoch_competition)
     <> Some (PStr (py_str (PInt 0)))
  /\ py_getattr Fixtures.undated_file "creationDate" = Some (PStr "")
  /\ field "creationDate" (project_file Fixtures.undated_file) = Some PNone
  /\ field "creationDate" (project_file Fixtures.undated_file)
     <> Some (PStr (py_str (PStr ""))).
Proof. repeat split; (reflexivity || discriminate). Qed.

(** C9, amended. In the dicts built for competitions, competition
    details, files and submissions, the date field ([deadline],
    [creationDate], [date]) is [str(v) if v else None] of the attribute
    [v]: its string form when the attribute is there and truthy, [None]
    when it is missing or falsy; it is a str or [None] in every case. *)
Theorem date_fields_stringified (x : pyval) :
  let render name := str_if_truthy (getattr x name PNone) in
  field "deadline" (project_competition x) = Some (render "deadline")
  /\ field "deadline" (project_competition_details x) = Some (render "deadline")
  /\ field "creationDate" (project_file x) = Some (render "creationDate")
  /\ field "date" (project_submission x) = Some (render "date")
  /\ forall name,
       (py_getattr x name = None -> render name = PNone)
       /\ (forall v, py_getattr x name = Some v ->
             render name = if py_truth v then PStr (py_str v) else PNone)
       /\ is_str_or_none (render name) = true.
Proof.
  cbv zeta. repeat split; try reflexivity.
  - intros Habsent. by rewrite (getattr_absent _ _ _ Habsent).
  - intros v Hv. unfold getattr. by rewrite Hv.
  - unfold str_if_truthy. by destruct (py_truth _).
Qed.

End CompetitionsSpec.

(** ** The credential resolver *)
Module ServerSpec.
Import Py Server.

#[local] Arguments String.append : simpl never.
#[local] Arguments substring_of : simpl never.
#[local] Arguments path_str : simpl never.

Ltac rstep :=
  unfold try_location, location_exists, open_and_load, os_environ_set, emit,
    lift, try_except, try_except_when, mbind, M_bind, mret, M_ret;
  cbn [environ trace fst snd].

Lemma env_truthy_set (v : string) : v <> "" -> env_truthy (Some v) = true.
Proof. intros Hne. cbn. by apply negb_true_iff, String.eqb_neq. Qed.

(** C6 as stated fails: both variables are set, the user name to the
    empty string; the first candidate is opened all the same and both
    variables are overwritten. *)
Lemma empty_variable_is_scanned :
  let s := State Fixtures.env_empty_username [] in
  let s' := (load_kaggle_config Fixtures.utf8 Fixtures.disk_first_good Fixtures.home s).2 in
  environ s !! KAGGLE_USERNAME = Some ""
  /\ environ s !! KAGGLE_KEY = Some "k3y"
  /\ trace s' = [Exists Fixtures.first_location; Opened Fixtures.first_location;
                 LogInfo "Loaded Kaggle credentials from /home/kaggler/.kaggle/kaggle.json"]
  /\ environ s' !! KAGGLE_USERNAME = Some "bob"
  /\ environ s' !! KAGGLE_KEY = Some "s3cret".
Proof. vm_compute. repeat split; reflexivity. Qed.

(** C6, amended. When both variables are set to non-empty values the
    resolver returns at once: no candidate is examined or opened (the
    trace is as it was) and the environment is unchanged. *)
Theorem environment_takes_precedence (enc : string -> option string)
    (disk : gmap path file) (home : path)
    (s : state) (u k : string) :
  environ s !! KAGGLE_USERNAME = Some u ->
  environ s !! KAGGLE_KEY = Some k ->
  u <> "" -> k <> "" ->
  load_kaggle_config enc disk home s = (Returned tt, s).
Proof.
  intros Hu Hk Hune Hkne. unfold load_kaggle_config.
  by rewrite Hu, Hk, !env_truthy_set.
Qed.

Lemma environment_takes_precedence_witness :
  load_kaggle_config Fixtures.utf8 Fixtures.disk_first_good Fixtures.home
    (State Fixtures.env_both [])
  = (Returned tt, State Fixtures.env_both []).
Proof.
  apply (environment_takes_precedence Fixtures.utf8 Fixtures.disk_first_good Fixtures.home
           (State Fixtures.env_both []) "alice" "k3y").
  - reflexivity.
  - reflexivity.
  - discriminate.
  - discriminate.
Defined.

(** *** One candidate *)

(** A candidate that yields credentials sets both variables and stops
    the scan. *)
Lemma try_location_yields (enc : string -> option string)
    (disk : gmap path file) (location : path) (s : state)
    (u k : string) :
  credentials_of enc (disk !! location) = Some (u, k) ->
  try_location enc disk location s
  = (Returned true,
     State (<[KAGGLE_KEY := k]> (<[KAGGLE_USERNAME := u]> (environ s)))
           (trace s ++ [Opened location;
                        LogInfo ("Loaded Kaggle credentials from " +:+ path_str location)])).
Proof.
  unfold credentials_of. intros Hcred.
  destruct (disk !! location) as [[| | |[]]|] eqn:Hdisk; try discriminate.
  destruct (assoc "username" entries) as [[]|] eqn:Husername; try discriminate.
  destruct (assoc "key" entries) as [[]|] eqn:Hkey; try discriminate.
  destruct (environ_takes enc _ && environ_takes enc _) eqn:Htakes; [|discriminate].
  injection Hcred as -> ->. apply andb_prop in Htakes as [Hu Hk].
  unfold environ_takes in Hu, Hk.
  destruct (enc u) eqn:Heu; [discriminate|].
  destruct (enc k) eqn:Hek; [discriminate|].
  apply negb_true_iff in Hu, Hk.
  rstep. rewrite Hdisk; cbn.
  rewrite Husername, Hkey; cbn. rewrite Heu, Hu; cbn. rewrite Hek, Hk; cbn.
  by rewrite <- app_assoc.
Qed.

(** A candidate the scan goes past: the body returns without [break],
    the fault, if any, ends in a warning, and of the environment at most
    the user name has been written. *)
Lemma try_location_passes (enc : string -> option string)
    (disk : gmap path file) (location : path) (s : state)
    (f : file) :
  disk !! location = Some f ->
  passed_over enc (Some f) = true ->
  exists s',
    try_location enc disk location s = (Returned false, s')
    /\ (exists tr, trace s' = (trace s ++ Opened location :: tr)%list)
    /\ (environ s' = environ s
        \/ exists a, environ s' = <[KAGGLE_USERNAME := a]> (environ s)).
Proof.
  intros Hdisk Hpass. rstep. rewrite Hdisk; cbn.
  unfold passed_over, credentials_of, environ_takes in Hpass.
  destruct f as [e|e|e|v]; [discriminate| | |]; cbn.
  1, 2: eexists; split; [reflexivity|]; cbn; split;
        [eexists; by rewrite <- app_assoc | by left].
  destruct v; cbn;
    repeat (case_match; simplify_eq/=);
    (eexists; split; [reflexivity|]; cbn; split;
     [eexists; by rewrite <- ?app_assoc | eauto]).
Qed.


(** *** The scan *)

Lemma scan_cons (enc : string -> option string)
    (disk : gmap path file) (location : path) (rest : list path)
    (s : state) :
  scan enc disk (location :: rest) s
  = let s1 := State (environ s) (trace s ++ [Exists location]) in
    match disk !! location with
    | None => scan enc disk rest s1
    | Some (Guarded e) => (Raised e, s1)
    | Some _ =>
        match try_location enc disk location s1 with
        | (Returned true, s2) => (Returned tt, s2)
        | (Returned false, s2) => scan enc disk rest s2
        | (Raised e, s2) => (Raised e, s2)
        end
    end.
Proof.
  cbn [scan]. unfold location_exists, emit, lift, mbind, M_bind, mret, M_ret.
  cbv beta iota zeta.
  destruct (disk !! location) as [[]|]; cbv beta iota; try reflexivity;
    destruct (try_location _ _ _) as [[[]|] ?]; reflexivity.
Qed.

Lemma credentials_exist (enc : string -> option string)
    (disk : gmap path file) (location : path) (u k : string) :
  credentials_of enc (disk !! location) = Some (u, k) ->
  exists v, disk !! location = Some (Json v).
Proof.
  unfold credentials_of.
  destruct (disk !! location) as [[]|]; try discriminate. eauto.
Qed.

(** The scan stops at the first candidate that yields credentials, the
    candidates before it being passed over; whatever those wrote is
    overwritten. *)
Lemma scan_finds (enc : string -> option string)
    (disk : gmap path file) (pre : list path) (loc : path)
    (post : list path) (u k : string) :
  Forall (fun p => passed_over enc (disk !! p) = true) pre ->
  credentials_of enc (disk !! loc) = Some (u, k) ->
  forall s, exists tr,
    scan enc disk (pre ++ loc :: post) s
    = (Returned tt,
       State (<[KAGGLE_KEY := k]> (<[KAGGLE_USERNAME := u]> (environ s)))
             (trace s ++ Exists (hd loc pre) :: tr)).
Proof.
  intros Hpre Hcred. induction Hpre as [|p pre Hp _ IH]; intros s.
  - cbn [app hd]. rewrite scan_cons. cbv zeta.
    destruct (credentials_exist _ _ _ _ _ Hcred) as [v ->].
    rewrite (try_location_yields _ _ _ _ u k Hcred). cbn [environ trace].
    eexists. by rewrite <- app_assoc.
  - cbn [app hd]. rewrite scan_cons. cbv zeta.
    destruct (disk !! p) as [f|] eqn:Hdisk.
    + destruct (try_location_passes enc disk p
                  (State (environ s) (trace s ++ [Exists p])) f Hdisk Hp)
        as (s2 & Hbody & [tr2 Htrace] & Henv).
      assert (Hf : match f with Guarded _ => False | _ => True end)
        by (by destruct f).
      destruct f; [done| | |]; rewrite Hbody;
        destruct (IH s2) as [tr ->]; cbn [trace environ] in *;
        (eexists; f_equal; f_equal;
         [destruct Henv as [-> | [a ->]];
            [reflexivity | by rewrite insert_insert_eq]
         |rewrite Htrace, <- !app_assoc; reflexivity]).
    + destruct (IH (State (environ s) (trace s ++ [Exists p]))) as [tr ->].
      cbn [trace environ]. eexists. by rewrite <- app_assoc.
Qed.




(** C10 as stated fails: only the user name is set; the first candidate
    parses to an object with both fields, the key a number; the user
    name is overwritten and the key stays unset. *)
Lemma numeric_key_not_loaded :
  let s := State Fixtures.env_username_only [] in
  let r := load_kaggle_config Fixtures.utf8 Fixtures.disk_first_half_numeric Fixtures.home s in
  environ s !! KAGGLE_USERNAME = Some "alice"
  /\ environ s !! KAGGLE_KEY = None
  /\ Fixtures.disk_first_half_numeric !! Fixtures.first_location
     = Some (Json (PDict [("username", PStr "bob"); ("key", PInt 5)]))
  /\ r.1 = Returned tt
  /\ environ r.2 !! KAGGLE_USERNAME = Some "bob"
  /\ environ r.2 !! KAGGLE_KEY = None.
Proof. vm_compute. repeat split; reflexivity. Qed.

(** C10, amended. With exactly one of the two variables set the scan
    takes place, beginning at the first candidate.  The first candidate
    that exists and parses to an object whose [username] and [key] are
    strs the environment takes (the filesystem encoding encodes them and
    they hold no NUL) overwrites both variables, the one that was set
    included, provided each candidate before it could be examined. *)
Theorem one_variable_set_still_scans (enc : string -> option string)
    (disk : gmap path file) (home : path)
    (s : state) (pre : list path) (loc : path) (post : list path)
    (u k : string) :
  (is_Some (environ s !! KAGGLE_USERNAME) /\ environ s !! KAGGLE_KEY = None)
  \/ (environ s !! KAGGLE_USERNAME = None /\ is_Some (environ s !! KAGGLE_KEY)) ->
  kaggle_locations home = (pre ++ loc :: post)%list ->
  Forall (fun p => passed_over enc (disk !! p) = true) pre ->
  credentials_of enc (disk !! loc) = Some (u, k) ->
  exists tr s',
    load_kaggle_config enc disk home s = (Returned tt, s')
    /\ trace s' = (trace s ++ Exists (home ++ [".kaggle"; "kaggle.json"]) :: tr)%list
    /\ environ s' = <[KAGGLE_KEY := k]> (<[KAGGLE_USERNAME := u]> (environ s))
    /\ environ s' !! KAGGLE_USERNAME = Some u
    /\ environ s' !! KAGGLE_KEY = Some k.
Proof.
  intros Hone Hlocs Hpre Hcred.
  destruct (scan_finds enc disk pre loc post u k Hpre Hcred s) as [tr Hscan].
  assert (Hhd : hd loc pre = (home ++ [".kaggle"; "kaggle.json"])%list).
  { unfold kaggle_locations in Hlocs. by destruct pre; injection Hlocs as -> _. }
  exists tr. eexists. split; [|split; [|split; [|split]]].
  - unfold load_kaggle_config. rewrite Hlocs.
    destruct Hone as [[_ ->] | [-> _]]; cbn [env_truthy negb orb];
      rewrite ?orb_true_r; exact Hscan.
  - cbn. by rewrite Hhd.
  - reflexivity.
  - cbn. by rewrite lookup_insert_ne, lookup_insert_eq.
  - cbn. by rewrite lookup_insert_eq.
Qed.

Lemma one_variable_set_still_scans_witness :
  exists tr s',
    load_kaggle_config Fixtures.utf8 Fixtures.disk_second_good Fixtures.home
      (State Fixtures.env_username_only []) = (Returned tt, s')
    /\ trace s' = Exists Fixtures.first_location :: tr
    /\ environ s' = <[KAGGLE_KEY := "s3cret"]>
                      (<[KAGGLE_USERNAME := "bob"]> Fixtures.env_username_only)
    /\ environ s' !! KAGGLE_USERNAME = Some "bob"
    /\ environ s' !! KAGGLE_KEY = Some "s3cret".
Proof.
  apply (one_variable_set_still_scans Fixtures.utf8 Fixtures.disk_second_good Fixtures.home
           (State Fixtures.env_username_only [])
           [Fixtures.first_location] Fixtures.second_location [] "bob" "s3cret").
  - left. split; [by eexists | reflexivity].
  - reflexivity.
  - constructor; [vm_compute; reflexivity | constructor].
  - vm_compute. reflexivity.
Defined.

End ServerSpec.

(** * Further properties *)

(** ** The competition tools: effects and answers *)
Module CompetitionsMore.
Import Py Competitions Answers CompetitionsSpec.

#[local] Arguments json_dumps : simpl never.
#[local] Arguments py_iter : simpl never.
#[local] Arguments String.append : simpl never.

Lemma tool_trace (h : host) (i : invocation) (s : state) :
  exists tr, trace (run h i s).2 = (trace s ++ tr)%list /\ shape tr.
Proof.
  destruct i; step; destruct (ensure_authenticated h) as [[] msg]; cbn;
    repeat (case_match; simplify_eq/=);
    rewrite <- ?app_assoc; cbn;
    (eexists; split; [reflexivity | constructor]).
Qed.

(** X1. One request, one call at most: whatever the client and the disk
    do, the events a tool adds to the trace hold at most one call into
    the client. *)
Theorem one_client_call_at_most (h : host) (i : invocation) (s : state) :
  exists tr,
    trace (run h i s).2 = (trace s ++ tr)%list
    /\ length (List.filter is_call tr) <= 1.
Proof.
  destruct (tool_trace h i s) as (tr & Htr & Hshape).
  exists tr. split; [exact Htr|]. destruct Hshape; cbn; lia.
Qed.

(** X2. A tool removes nothing but the temporary directory it has just
    made: every [rmtree] in the events of a request names the directory
    an earlier [mkdtemp] of the same request returned, and comes after
    the client call. *)
Theorem rmtree_only_own_tmpdir (h : host) (i : invocation) (s : state) :
  exists tr,
    trace (run h i s).2 = (trace s ++ tr)%list
    /\ forall before p after,
         tr = (before ++ Rmtree p :: after)%list ->
         In (Mkdtemp (Returned p)) before
         /\ (exists c, In (Call c) before)
         /\ after = [].
Proof.
  destruct (tool_trace h i s) as (tr & Htr & Hshape).
  exists tr. split; [exact Htr|]. intros before p after Heq.
  destruct Hshape;
    repeat (destruct before as [|? before]; simplify_eq/=);
    repeat split; eauto.
Qed.

(** X3. A request that needs no temporary directory makes no directory
    and removes none, whatever the client answers: its effects hold
    neither [mkdtemp] nor [rmtree], and the only path the tool itself
    looks up is the file of a submission. *)
Theorem no_directory_effect_without_tmpdir (h : host) (i : invocation) (s : state) :
  wants_tmpdir i = false ->
  exists tr,
    trace (run h i s).2 = (trace s ++ tr)%list
    /\ Forall (fun ev => changes_disk ev = false) tr
    /\ forall ev p, In ev tr -> looks_up ev = Some p ->
         exists competition message, i = Competition_submit competition p message.
Proof.
  intros Hwants. destruct i; cbn in Hwants;
    step; destruct (ensure_authenticated h) as [[] msg]; cbn;
    try (destruct (String.eqb path ""); [discriminate|]; cbn);
    repeat (case_match; simplify_eq/=);
    rewrite <- ?app_assoc; cbn;
    (eexists; split; [reflexivity|]; split; [by repeat constructor|]);
    intros ev p Hev Hp; cbn in Hev;
    repeat (destruct Hev as [<- | Hev]; [by simplify_eq/=; eauto|]);
    destruct Hev.
Qed.

Lemma no_directory_effect_without_tmpdir_witness :
  exists tr,
    trace (run (Fixtures.host_with (true, "") Fixtures.always_raises)
               (Competition_download_files "titanic" "/data" "train.csv" true)
               Fixtures.start).2
    = ([] ++ tr)%list
    /\ Forall (fun ev => changes_disk ev = false) tr
    /\ forall ev p, In ev tr -> looks_up ev = Some p ->
         exists competition message,
           Competition_download_files "titanic" "/data" "train.csv" true
           = Competition_submit competition p message.
Proof.
  apply (no_directory_effect_without_tmpdir
           (Fixtures.host_with (true, "") Fixtures.always_raises)
           (Competition_download_files "titanic" "/data" "train.csv" true)
           Fixtures.start).
  reflexivity.
Defined.

(** X4. When the client raises, each tool answers with its own prefix
    followed by [str(e)], provided the request reaches the client at
    all (the caller is authenticated, a download without destination
    gets its temporary directory, the file to submit exists). *)
Theorem client_fault_is_wrapped (h : host) (i : invocation) (s : state)
    (msg : string) (e : exn) :
  ensure_authenticated h = (true, msg) ->
  (forall c, api h c = Raised e) ->
  reaches_client h i s ->
  (run h i s).1 = Returned (PStr (error_prefix i +:+ exn_text e)).
Proof.
  intros Hgate Hapi Hready. destruct i; cbn in Hready; step;
    rewrite Hgate; cbn; rewrite ?Hapi; cbn; try reflexivity.
  - destruct (String.eqb path ""); cbn in Hready |- *.
    + destruct (Hready eq_refl) as [d ->]; cbn.
      destruct (negb (String.eqb file_name "")); cbn; by rewrite Hapi.
    + destruct (negb (String.eqb file_name "")); cbn; by rewrite Hapi.
  - destruct Hready as [[size mtime] Hfile]. rewrite Hfile.
    rewrite bool_decide_eq_true_2 by eauto. cbn. by rewrite Hfile.
Qed.

Lemma client_fault_is_wrapped_witness :
  (run (Fixtures.host_with (true, "") Fixtures.always_raises)
       (Competition_submissions "titanic") Fixtures.start).1
  = Returned (PStr "Error listing submissions: remote end closed the connection").
Proof.
  apply (client_fault_is_wrapped
           (Fixtures.host_with (true, "") Fixtures.always_raises)
           (Competition_submissions "titanic") Fixtures.start "" Fixtures.boom).
  - reflexivity.
  - reflexivity.
  - exact I.
Defined.

Lemma prefix_of_append (p r : string) : String.prefix p (p +:+ r) = true.
Proof.
  induction p as [|c p IH]; [by destruct r|].
  change (String c p +:+ r) with (String c (p +:+ r)).
  cbn [String.prefix]. destruct (ascii_dec c c); [exact IH | done].
Qed.

Lemma substring_of_head (d r : string) : substring_of d (d +:+ r) = true.
Proof. by rewrite substring_of_unfold, prefix_of_append. Qed.

(** X5. A download into a directory the caller names: the tool itself
    makes no directory and removes none; after the gate its one effect
    is the client call for that directory ([competition_download_file]
    when a file name is given, [competition_download_files] otherwise),
    and the answer names the directory, and the file when one was
    given. *)
Theorem download_to_given_path (h : host) (competition path file_name : string)
    (force : bool) (s : state) (msg : string) (v : pyval) :
  ensure_authenticated h = (true, msg) ->
  path <> "" ->
  api h (download_call competition file_name path force) = Returned v ->
  let r := competition_download_files h competition path file_name force s in
  r.1 = Returned (PStr (download_message file_name path))
  /\ trace r.2
     = (trace s ++ [Gate; Call (download_call competition file_name path force)])%list
  /\ substring_of path (download_message file_name path) = true
  /\ (file_name <> "" ->
      download_call competition file_name path force
      = Api_competition_download_file competition file_name path force
      /\ substring_of file_name (download_message file_name path) = true)
  /\ (file_name = "" ->
      download_call competition file_name path force
      = Api_competition_download_files competition path force).
Proof.
  intros Hgate Hpath Hv r.
  assert (Hrun : r = (Returned (PStr (download_message file_name path)),
                      State (fs s)
                            (trace s ++ [Gate; Call (download_call competition
                                                       file_name path force)]))).
  { unfold r. revert Hv. unfold download_call, download_message. step.
    rewrite Hgate; cbn.
    pose proof (truthy_str path Hpath) as Htruth. cbn in Htruth. rewrite Htruth; cbn.
    destruct (negb (String.eqb file_name "")); cbn; intros ->; cbn;
      by rewrite <- !app_assoc. }
  rewrite Hrun. split; [reflexivity|]. split; [reflexivity|].
  split; [|split].
  - apply download_message_names.
  - intros Hname. unfold download_call, download_message.
    rewrite (truthy_str file_name Hname). split; [reflexivity|].
    apply substring_of_prepend, substring_of_head.
  - by intros ->.
Qed.

Lemma download_to_given_path_witness :
  (competition_download_files
     (Fixtures.host_with (true, "") (Fixtures.always_returns PNone))
     "titanic" "/data" "train.csv" false Fixtures.start).1
  = Returned (PStr "Downloaded file 'train.csv' to /data")
  /\ trace (competition_download_files
              (Fixtures.host_with (true, "") (Fixtures.always_returns PNone))
              "titanic" "/data" "train.csv" false Fixtures.start).2
     = [Gate; Call (Api_competition_download_file "titanic" "train.csv" "/data" false)].
Proof.
  destruct (download_to_given_path
              (Fixtures.host_with (true, "") (Fixtures.always_returns PNone))
              "titanic" "/data" "train.csv" false Fixtures.start "" PNone)
    as (Hanswer & Htrace & _).
  - reflexivity.
  - discriminate.
  - reflexivity.
  - split; [exact Hanswer | exact Htrace].
Defined.

(** X6. A submission whose file exists: the tool looks the file up,
    reads its size and date, calls the client once with
    [(file_path, message, competition)] and answers with the response's
    [message] when that is truthy, else with ["Submission status: "] and
    its [status] when that is truthy, else with
    ["Submission successful."]. *)
Theorem submit_answer (h : host) (competition file_path message : string)
    (s : state) (msg : string) (stat : Z * Z) (response : pyval) :
  ensure_authenticated h = (true, msg) ->
  files (fs s) !! file_path = Some stat ->
  api h (Api_competition_submit file_path message competition) = Returned response ->
  exists answer,
    competition_submit h competition file_path message s
    = (Returned answer,
       State (fs s)
             (trace s ++ [Gate; IsFile file_path; GetSize file_path;
                          GetMtime file_path;
                          Call (Api_competition_submit file_path message competition)]))
    /\ (forall m, py_getattr response "message" = Some m -> py_truth m = true ->
          answer = m)
    /\ (lacks response "message" ->
        forall st, py_getattr response "status" = Some st -> py_truth st = true ->
          answer = PStr ("Submission status: " +:+ py_str st))
    /\ (lacks response "message" -> lacks response "status" ->
        answer = PStr "Submission successful.").
Proof.
  intros Hgate Hfile Hresponse. destruct stat as [size mtime].
  eexists. split.
  - step. rewrite Hgate; cbn. rewrite Hfile.
    rewrite bool_decide_eq_true_2 by eauto. cbn. rewrite Hfile, Hresponse; cbn.
    rewrite <- !app_assoc. reflexivity.
  - unfold lacks, hasattr, getattr. repeat split.
    + intros m -> Hm. cbn. by rewrite Hm.
    + intros Hmessage st -> Hst.
      destruct (py_getattr response "message"); cbn;
        rewrite ?Hmessage, ?Hst; reflexivity.
    + intros Hmessage Hstatus.
      destruct (py_getattr response "message"), (py_getattr response "status");
        cbn; rewrite ?Hmessage, ?Hstatus; reflexivity.
Qed.

Lemma submit_answer_witness :
  exists answer,
    competition_submit
      (Fixtures.host_with (true, "") (Fixtures.always_returns Fixtures.pending_response))
      "titanic" "/data/submission.csv" "first try" Fixtures.start_with_submission
    = (Returned answer,
       State Fixtures.fs_with_submission
             [Gate; IsFile "/data/submission.csv"; GetSize "/data/submission.csv";
              GetMtime "/data/submission.csv";
              Call (Api_competition_submit "/data/submission.csv" "first try" "titanic")])
    /\ answer = PStr "Submission status: pending".
Proof.
  destruct (submit_answer
              (Fixtures.host_with (true, "")
                 (Fixtures.always_returns Fixtures.pending_response))
              "titanic" "/data/submission.csv" "first try"
              Fixtures.start_with_submission "" (2048%Z, 1700000000%Z)
              Fixtures.pending_response eq_refl eq_refl eq_refl)
    as (answer & Hrun & _ & Hstatus & _).
  exists answer. split; [exact Hrun|].
  apply (Hstatus eq_refl (PStr "pending")); reflexivity.
Defined.

(** X7. [competition_details] builds one dict with twelve keys in fixed
    order; a field the record lacks is [None], except [tags], which
    defaults to the empty list; the answer is that dict serialized, or
    the error text when [json.dumps] refuses it. *)
Theorem competition_details_projection (h : host) (competition : string)
    (s : state) (msg : string) (comp : pyval) :
  ensure_authenticated h = (true, msg) ->
  api h (Api_competition_get competition) = Returned comp ->
  let result := project_competition_details comp in
  (exists entries, result = PDict entries /\ keys entries = competition_detail_fields)
  /\ (forall name, name ∈ competition_detail_fields -> name <> "tags" ->
        py_getattr comp name = None -> field name result = Some PNone)
  /\ (py_getattr comp "tags" = None -> field "tags" result = Some (PList []))
  /\ competition_details h competition s
     = (Returned (PStr match json_dumps result with
                       | Returned text => text
                       | Raised e => "Error getting competition details: " +:+ exn_text e
                       end),
        State (fs s) (trace s ++ [Gate; Call (Api_competition_get competition)])).
Proof.
  intros Hgate Hcomp result. repeat apply conj.
  - eexists. split; reflexivity.
  - intros name Hname Hne Habsent.
    apply list_elem_of_In in Hname. cbn in Hname.
    unfold result, project_competition_details, str_if_truthy.
    repeat (destruct Hname as [<- | Hname];
            [try congruence; rewrite !(getattr_absent _ _ _ Habsent); reflexivity|]).
    destruct Hname.
  - intros Habsent. unfold result, project_competition_details.
    cbn. by rewrite (getattr_absent _ _ _ Habsent).
  - step. rewrite Hgate; cbn. rewrite Hcomp; cbn. rewrite <- app_assoc; cbn.
    fold result. by destruct (json_dumps result).
Qed.

Lemma competition_details_projection_witness :
  field "tags" (project_competition_details Fixtures.digits) = Some (PList [])
  /\ field "reward" (project_competition_details Fixtures.digits) = Some PNone.
Proof.
  destruct (competition_details_projection
              (Fixtures.host_with (true, "") (Fixtures.always_returns Fixtures.digits))
              "digit-recognizer" Fixtures.start "" Fixtures.digits eq_refl eq_refl)
    as (_ & Hnull & Htags & _).
  split.
  - apply Htags. reflexivity.
  - apply Hnull; [in_fields | discriminate | reflexivity].
Defined.

(** *** The listing tools *)

Lemma listing_unfolds (h : host) (i : invocation) (s : state) (msg : string)
    (c : api_call) (project : pyval -> pyval) (raw : pyval) :
  listing i = Some (c, project) ->
  ensure_authenticated h = (true, msg) ->
  api h c = Returned raw ->
  run h i s
  = (Returned (PStr match py_iter raw with
                    | Raised e => error_prefix i +:+ exn_text e
                    | Returned items =>
                        match json_dumps (PList (map project items)) with
                        | Returned text => text
                        | Raised e => error_prefix i +:+ exn_text e
                        end
                    end),
     State (fs s) (trace s ++ [Gate; Call c])).
Proof.
  intros Hlisting Hgate Hraw.
  destruct i; simplify_eq/=; step; rewrite Hgate; cbn; rewrite Hraw; cbn;
    rewrite <- app_assoc; cbn;
    (destruct (py_iter raw) as [items|e]; cbn; [|reflexivity]);
    by destruct (json_dumps _).
Qed.

Lemma traverse_first_fault {A B : Type} (ok : A -> bool) (f : A -> outcome B)
    (Q : exn -> Prop) (l : list A) :
  Forall (fun x => if ok x then exists y, f x = Returned y
                   else exists e, f x = Raised e /\ Q e) l ->
  forallb ok l = false ->
  exists e, traverse f l = Raised e /\ Q e.
Proof.
  induction 1 as [|x r Hx _ IH]; cbn; [discriminate|].
  destruct (ok x); cbn.
  - intros Hr. destruct Hx as [y ->]. destruct (IH Hr) as (e & He & HQ).
    cbn in He. rewrite He. eauto.
  - intros _. destruct Hx as (e & -> & HQ). eauto.
Qed.

(** What [json.dumps] does on every value: it returns on the values free
    of foreign objects and raises the fault naming a class on the
    others. *)
Lemma iterencode_decides (v : pyval) (level : nat) :
  if json_ok v then exists text, iterencode level v = Returned text
  else exists e, iterencode level v = Raised e
                 /\ exists cls, e = not_serializable cls.
Proof.
  destruct (json_ok v) eqn:Hok; [by apply json_ok_iterencode|].
  revert level Hok.
  induction v as [| [] | | | items IH | entries IH | o attrs]
    using pyval_nested_ind; cbn [json_ok]; intros level Hok; try discriminate.
  - destruct items as [|x r]; [discriminate|].
    destruct (traverse_first_fault json_ok (iterencode (S level))
                (fun e => exists cls, e = not_serializable cls) (x :: r))
      as (e & He & HQ); [|exact Hok|].
    + apply Forall_forall. intros y Hy. rewrite Forall_forall in IH.
      destruct (json_ok y) eqn:Hy'; [by apply json_ok_iterencode | by apply IH].
    + cbn [iterencode]. rewrite He. eauto.
  - destruct entries as [|kv r]; [discriminate|].
    destruct (traverse_first_fault (fun kv => json_ok kv.2)
                (fun kv => let '(k, x) := kv in
                   match iterencode (S level) x with
                   | Raised e => Raised e
                   | Returned chunk =>
                       Returned (encode_basestring_ascii k +:+ ": " +:+ chunk)
                   end)
                (fun e => exists cls, e = not_serializable cls) (kv :: r))
      as (e & He & HQ); [|exact Hok|].
    + apply Forall_forall. intros [k y] Hy. rewrite Forall_forall in IH. cbn.
      destruct (json_ok y) eqn:Hy'.
      * destruct (json_ok_iterencode y Hy' (S level)) as [text ->]. eauto.
      * destruct (IH (k, y) Hy (S level) Hy') as (e & He & HQ).
        cbn in He. rewrite He. eauto.
    + cbn [iterencode]. rewrite He. eauto.
  - cbn. eexists. split; [reflexivity|]. by eexists.
Qed.

(** X8. All or nothing in the three listing tools ([competitions_list],
    [competition_list_files], [competition_submissions]): when every
    value kept from the records is one [json.dumps] takes, the answer
    is the text of the whole list, one record per item; when a single
    kept value is a foreign object, the whole answer is the tool's
    error text naming that object's class. *)
Theorem listing_all_or_nothing (h : host) (i : invocation) (s : state)
    (msg : string) (c : api_call) (project : pyval -> pyval)
    (items : list pyval) :
  listing i = Some (c, project) ->
  ensure_authenticated h = (true, msg) ->
  api h c = Returned (PList items) ->
  let result := map project items in
  length result = length items
  /\ (forallb json_ok result = true ->
      exists text, json_dumps (PList result) = Returned text
                   /\ (run h i s).1 = Returned (PStr text))
  /\ (forallb json_ok result = false ->
      exists cls,
        (run h i s).1
        = Returned (PStr (error_prefix i +:+ exn_text (not_serializable cls)))).
Proof.
  intros Hlisting Hgate Hraw result.
  rewrite (listing_unfolds h i s msg c project (PList items) Hlisting Hgate Hraw).
  unfold py_iter. fold result. cbn [fst].
  pose proof (iterencode_decides (PList result) 0) as Hdumps.
  cbn [json_ok] in Hdumps. unfold json_dumps.
  split; [apply length_map|]. split; intros Hok; rewrite Hok in Hdumps.
  - destruct Hdumps as [text ->]. eauto.
  - destruct Hdumps as (e & -> & cls & ->). eauto.
Qed.

Lemma listing_all_or_nothing_witness :
  (exists text,
     json_dumps (PList (map project_file [Fixtures.train_file; Fixtures.undated_file]))
     = Returned text
     /\ (run (Fixtures.host_with (true, "")
                (Fixtures.always_returns
                   (PList [Fixtures.train_file; Fixtures.undated_file])))
             (Competition_list_files "titanic") Fixtures.start).1
        = Returned (PStr text))
  /\ exists cls,
       (run (Fixtures.host_with (true, "")
               (Fixtures.always_returns
                  (PList [Fixtures.titanic;
                          Fixtures.entity "Competition"
                            [("reward", Fixtures.a_datetime)]])))
            (Competitions_list "" "all" "general" "latestDeadline" 1)
            Fixtures.start).1
       = Returned (PStr ("Error listing competitions: "
                         +:+ exn_text (not_serializable cls))).
Proof.
  split.
  - apply (proj1 (proj2 (listing_all_or_nothing
             (Fixtures.host_with (true, "")
                (Fixtures.always_returns
                   (PList [Fixtures.train_file; Fixtures.undated_file])))
             (Competition_list_files "titanic") Fixtures.start ""
             (Api_competition_list_files "titanic") project_file
             [Fixtures.train_file; Fixtures.undated_file]
             eq_refl eq_refl eq_refl))).
    reflexivity.
  - apply (proj2 (proj2 (listing_all_or_nothing
             (Fixtures.host_with (true, "")
                (Fixtures.always_returns
                   (PList [Fixtures.titanic;
                           Fixtures.entity "Competition"
                             [("reward", Fixtures.a_datetime)]])))
             (Competitions_list "" "all" "general" "latestDeadline" 1)
             Fixtures.start ""
             (Api_competitions_list "" "all" "general" "latestDeadline" 1)
             project_competition
             [Fixtures.titanic;
              Fixtures.entity "Competition" [("reward", Fixtures.a_datetime)]]
             eq_refl eq_refl eq_refl))).
    reflexivity.
Defined.

(** X9. The listing tools at the edges.  A client result with nothing
    to iterate (an empty list, an empty dict, an empty string) gives
    ["[]"]; a result that cannot be iterated ([None], a number, an
    object) gives the tool's error text with the interpreter's
    "object is not iterable" message. *)
Theorem listing_edges (h : host) (i : invocation) (s : state) (msg : string)
    (c : api_call) (project : pyval -> pyval) (raw : pyval) :
  listing i = Some (c, project) ->
  ensure_authenticated h = (true, msg) ->
  api h c = Returned raw ->
  (py_iter raw = Returned [] -> (run h i s).1 = Returned (PStr "[]"))
  /\ (forall e, py_iter raw = Raised e ->
        (run h i s).1 = Returned (PStr (error_prefix i +:+ exn_text e))
        /\ e = TypeError ("'" +:+ py_type_name raw +:+ "' object is not iterable")).
Proof.
  intros Hlisting Hgate Hraw.
  rewrite (listing_unfolds h i s msg c project raw Hlisting Hgate Hraw). cbn [fst].
  split.
  - by intros ->.
  - intros e He. rewrite He. split; [reflexivity|].
    revert He. unfold py_iter. destruct raw; intros He; by simplify_eq.
Qed.

Lemma listing_edges_witness :
  (run (Fixtures.host_with (true, "") (Fixtures.always_returns (PList [])))
       (Competition_submissions "titanic") Fixtures.start).1
  = Returned (PStr "[]")
  /\ (run (Fixtures.host_with (true, "") (Fixtures.always_returns PNone))
          (Competition_list_files "titanic") Fixtures.start).1
     = Returned (PStr "Error listing competition files: 'NoneType' object is not iterable").
Proof.
  split.
  - apply (proj1 (listing_edges
             (Fixtures.host_with (true, "") (Fixtures.always_returns (PList [])))
             (Competition_submissions "titanic") Fixtures.start ""
             (Api_competition_submissions "titanic") project_submission (PList [])
             eq_refl eq_refl eq_refl)).
    reflexivity.
  - apply (proj2 (listing_edges
             (Fixtures.host_with (true, "") (Fixtures.always_returns PNone))
             (Competition_list_files "titanic") Fixtures.start ""
             (Api_competition_list_files "titanic") project_file PNone
             eq_refl eq_refl eq_refl)
             (TypeError "'NoneType' object is not iterable")).
    reflexivity.
Defined.

(** *** The boundary of a tool *)

(** X10. A tool lets a fault through in one case only: it is a download
    without destination, the caller is authenticated, and the fault is
    the one [tempfile.mkdtemp()] raised.  Faults of the client, of
    [json.dumps], of the iteration and of the file lookups never leave
    a tool. *)
Theorem raises_only_through_mkdtemp (h : host) (i : invocation) (s : state)
    (e : exn) :
  (run h i s).1 = Raised e ->
  wants_tmpdir i = true
  /\ (ensure_authenticated h).1 = true
  /\ mkdtemp h (fs s) = Raised e.
Proof.
  destruct i; step; destruct (ensure_authenticated h) as [[] msg]; cbn;
    try (destruct (String.eqb path ""); cbn;
         [destruct (mkdtemp h (fs s)) eqn:Htmp; cbn|]);
    repeat (case_match; simplify_eq/=); intros He; by simplify_eq.
Qed.

Lemma raises_only_through_mkdtemp_witness :
  wants_tmpdir (Competition_download_files "titanic" "" "" false) = true
  /\ (ensure_authenticated Fixtures.host_without_tmpdir).1 = true
  /\ mkdtemp Fixtures.host_without_tmpdir (fs Fixtures.start)
     = Raised Fixtures.no_tmpdir.
Proof.
  apply (raises_only_through_mkdtemp Fixtures.host_without_tmpdir
           (Competition_download_files "titanic" "" "" false) Fixtures.start
           Fixtures.no_tmpdir).
  reflexivity.
Defined.

(** X11. What a tool returns is a str, with one exception: the
    submission tool hands back the client's [response.message] as it
    is, so a truthy message that is not a str comes back unconverted. *)
Theorem answers_are_text (h : host) (i : invocation) (s : state) (v : pyval) :
  (run h i s).1 = Returned v ->
  (exists text, v = PStr text)
  \/ (exists competition file_path message response,
        i = Competition_submit competition file_path message
        /\ api h (Api_competition_submit file_path message competition)
           = Returned response
        /\ py_getattr response "message" = Some v
        /\ py_truth v = true).
Proof.
  destruct i; step; destruct (ensure_authenticated h) as [[] msg]; cbn;
    try (destruct (String.eqb path ""); cbn;
         [destruct (mkdtemp h (fs s)) eqn:Htmp; cbn|]);
    repeat (case_match; simplify_eq/=); intros Hv; simplify_eq; eauto.
  all: right; do 4 eexists; split; [reflexivity|]; split; [eassumption|].
  all: match goal with
       | H : hasattr _ _ && _ = true |- _ =>
           apply andb_prop in H as [Hhas Htruth]
       end.
  all: unfold hasattr, getattr in *.
  all: destruct (py_getattr _ "message"); [by split | discriminate].
Qed.

Lemma answers_are_text_witness :
  (exists text,
     PStr "Error listing submissions: remote end closed the connection" = PStr text)
  \/ (exists competition file_path message response,
        Competition_submissions "titanic"
        = Competition_submit competition file_path message
        /\ api (Fixtures.host_with (true, "") Fixtures.always_raises)
               (Api_competition_submit file_path message competition)
           = Returned response
        /\ py_getattr response "message"
           = Some (PStr "Error listing submissions: remote end closed the connection")
        /\ py_truth (PStr "Error listing submissions: remote end closed the connection")
           = true).
Proof.
  apply (answers_are_text (Fixtures.host_with (true, "") Fixtures.always_raises)
           (Competition_submissions "titanic") Fixtures.start).
  reflexivity.
Defined.

(** X12. The leaderboard tool never projects: for every value the
    client returns the answer is [json.dumps] of that very value, or the
    error text when [json.dumps] refuses it.  A string therefore comes
    back as a quoted JSON string, and a list of entries with every key
    it had. *)
Theorem leaderboard_never_projects (h : host) (competition : string) (s : state)
    (msg : string) (raw : pyval) :
  ensure_authenticated h = (true, msg) ->
  api h (Api_competition_leaderboard_view competition) = Returned raw ->
  competition_leaderboard h competition s
  = (Returned (PStr match json_dumps raw with
                    | Returned text => text
                    | Raised e => "Error retrieving leaderboard: " +:+ exn_text e
                    end),
     State (fs s) (trace s ++ [Gate; Call (Api_competition_leaderboard_view competition)]))
  /\ (forall text, raw = PStr text ->
        (competition_leaderboard h competition s).1
        = Returned (PStr (encode_basestring_ascii text)))
  /\ (json_ok raw = false ->
      exists cls,
        (competition_leaderboard h competition s).1
        = Returned (PStr ("Error retrieving leaderboard: "
                          +:+ exn_text (not_serializable cls)))).
Proof.
  intros Hgate Hraw.
  pose proof (leaderboard_dumps_raw h competition s msg raw Hgate Hraw) as Hrun.
  split; [exact Hrun|]. rewrite Hrun. cbn [fst]. split.
  - by intros text ->.
  - intros Hok. pose proof (iterencode_decides raw 0) as Hdumps.
    rewrite Hok in Hdumps. destruct Hdumps as (e & He & cls & ->).
    unfold json_dumps. rewrite He. eauto.
Qed.

Lemma leaderboard_never_projects_witness :
  (competition_leaderboard
     (Fixtures.host_with (true, "")
        (Fixtures.always_returns (PStr Fixtures.leaderboard_csv)))
     "titanic" Fixtures.start).1
  = Returned (PStr (encode_basestring_ascii Fixtures.leaderboard_csv)).
Proof.
  apply (proj1 (proj2 (leaderboard_never_projects
           (Fixtures.host_with (true, "")
              (Fixtures.always_returns (PStr Fixtures.leaderboard_csv)))
           "titanic" Fixtures.start "" (PStr Fixtures.leaderboard_csv)
           eq_refl eq_refl))).
  reflexivity.
Defined.

End CompetitionsMore.

(** ** The credential resolver and the entry point *)
Module ServerMore.
Import Py Server Candidates ServerSpec.

#[local] Arguments String.append : simpl never.
#[local] Arguments substring_of : simpl never.
#[local] Arguments path_str : simpl never.

Lemma extends_refl (env : gmap string string) : extends env env.
Proof. by intros name. Qed.

Lemma extends_trans (a b c : gmap string string) :
  extends a b -> extends b c -> extends a c.
Proof.
  intros Hab Hbc name. destruct (Hab name) as [Hab1 Hab2].
  destruct (Hbc name) as [Hbc1 Hbc2]. split.
  - intros H1 H2. by rewrite Hbc1, Hab1.
  - eauto.
Qed.

Lemma extends_insert (env : gmap string string) (name value : string) :
  name = KAGGLE_USERNAME \/ name = KAGGLE_KEY ->
  extends env (<[name := value]> env).
Proof.
  intros Hname other. split.
  - intros H1 H2. apply lookup_insert_ne. destruct Hname; congruence.
  - intros Hsome. rewrite lookup_insert. case_decide; [by eexists | exact Hsome].
Qed.

(** The loop body never raises, and what it does to the environment is
    to write one or both of the two variables. *)
Lemma try_location_extends (enc : string -> option string)
    (disk : gmap path file) (location : path) (s : state) :
  exists stop s',
    try_location enc disk location s = (Returned stop, s')
    /\ extends (environ s) (environ s').
Proof.
  rstep. destruct (disk !! location) as [[e|e|e|v]|]; cbn;
    try (do 2 eexists; split; [reflexivity | apply extends_refl]).
  destruct v; cbn; repeat (case_match; simplify_eq/=);
    (do 2 eexists; split; [reflexivity|]); cbn;
    eauto 6 using extends_refl, extends_trans, extends_insert.
Qed.

Lemma scan_extends (enc : string -> option string)
    (disk : gmap path file) (locations : list path) (s : state) :
  extends (environ s) (environ (scan enc disk locations s).2).
Proof.
  revert s. induction locations as [|location rest IH]; intros s.
  - apply extends_refl.
  - rewrite scan_cons. cbv zeta.
    pose proof (try_location_extends enc disk location
                  (State (environ s) (trace s ++ [Exists location])))
      as (stop & s2 & Hbody & Hext).
    destruct (disk !! location) as [[]|]; cbn;
      try apply extends_refl; try apply (IH (State _ _));
      rewrite Hbody; destruct stop; cbn; try exact Hext;
      exact (extends_trans _ _ _ Hext (IH s2)).
Qed.

(** X13. The resolver writes to [KAGGLE_USERNAME] and [KAGGLE_KEY] and
    to nothing else, and it unsets nothing: on every disk, whether it
    returns or raises, every other variable keeps its value and every
    variable that was set stays set. *)
Theorem resolver_touches_only_its_variables (enc : string -> option string)
    (disk : gmap path file) (home : path)
    (s : state) (name : string) :
  let env' := environ (load_kaggle_config enc disk home s).2 in
  (name <> KAGGLE_USERNAME -> name <> KAGGLE_KEY ->
   env' !! name = environ s !! name)
  /\ (is_Some (environ s !! name) -> is_Some (env' !! name)).
Proof.
  cbv zeta. unfold load_kaggle_config.
  destruct (_ || _); [apply scan_extends | apply extends_refl].
Qed.

Lemma resolver_touches_only_its_variables_witness :
  environ (load_kaggle_config Fixtures.utf8 Fixtures.disk_first_good Fixtures.home
             (State Fixtures.env_path_only [])).2 !! "PATH"
  = Some "/usr/bin".
Proof.
  apply (proj1 (resolver_touches_only_its_variables Fixtures.utf8 Fixtures.disk_first_good
                  Fixtures.home (State Fixtures.env_path_only []) "PATH")).
  - discriminate.
  - discriminate.
Defined.

Lemma must_scan_load (enc : string -> option string)
    (disk : gmap path file) (home : path) (s : state) :
  must_scan (environ s) = true ->
  load_kaggle_config enc disk home s = scan enc disk (kaggle_locations home) s.
Proof. unfold must_scan, load_kaggle_config. by intros ->. Qed.

(** X14. The first candidate that yields credentials ends the scan: when
    the file under [~/.kaggle] parses to an object whose [username] and
    [key] are strs the environment takes (the filesystem encoding
    encodes them and they hold no NUL), both variables are set from it
    and the file under [~/.config/kaggle] is neither examined nor
    opened, whatever it holds. *)
Theorem first_candidate_wins (enc : string -> option string)
    (disk : gmap path file) (home : path) (s : state)
    (u k : string) :
  let first := (home ++ [".kaggle"; "kaggle.json"])%list in
  must_scan (environ s) = true ->
  credentials_of enc (disk !! first) = Some (u, k) ->
  load_kaggle_config enc disk home s
  = (Returned tt,
     State (<[KAGGLE_KEY := k]> (<[KAGGLE_USERNAME := u]> (environ s)))
           (trace s ++ [Exists first; Opened first;
                        LogInfo ("Loaded Kaggle credentials from "
                                 +:+ path_str first)])).
Proof.
  cbv zeta. intros Hscan Hcred. rewrite (must_scan_load _ _ _ _ Hscan).
  unfold kaggle_locations. rewrite scan_cons. cbv zeta.
  destruct (credentials_exist _ _ _ _ _ Hcred) as [v ->].
  rewrite (try_location_yields _ _ _ _ u k Hcred). cbn [environ trace].
  by rewrite <- app_assoc.
Qed.

Lemma first_candidate_wins_witness :
  load_kaggle_config Fixtures.utf8 Fixtures.disk_both_good Fixtures.home (State ∅ [])
  = (Returned tt,
     State (<[KAGGLE_KEY := "s3cret"]> (<[KAGGLE_USERNAME := "bob"]> ∅))
           [Exists Fixtures.first_location; Opened Fixtures.first_location;
            LogInfo ("Loaded Kaggle credentials from "
                     +:+ path_str Fixtures.first_location)]).
Proof.
  apply (first_candidate_wins Fixtures.utf8 Fixtures.disk_both_good Fixtures.home (State ∅ [])
           "bob" "s3cret").
  - reflexivity.
  - vm_compute. reflexivity.
Defined.

(** X15. The two assignments are not atomic.  A candidate whose
    [username] the environment takes and whose [key] it refuses (a
    number, [null], a str the filesystem encoding does not encode or
    that holds a NUL) leaves [KAGGLE_USERNAME] overwritten and
    [KAGGLE_KEY] as it was; the fault ends in a warning and the scan goes
    on. *)
Theorem half_loaded_credentials (enc : string -> option string)
    (disk : gmap path file) (location : path)
    (s : state) (entries : list (string * pyval)) (u : string) (key : pyval) :
  disk !! location = Some (Json (PDict entries)) ->
  assoc "username" entries = Some (PStr u) ->
  environ_takes enc u = true ->
  assoc "key" entries = Some key ->
  env_takes enc key = false ->
  exists text,
    try_location enc disk location s
    = (Returned false,
       State (<[KAGGLE_USERNAME := u]> (environ s))
             (trace s ++ [Opened location;
                          LogWarning ("Failed to load credentials from "
                                      +:+ path_str location +:+ ": " +:+ text)]))
    /\ (text = "embedded null byte"
        \/ text = "str expected, not " +:+ py_type_name key
        \/ exists t, key = PStr t /\ enc t = Some text).
Proof.
  intros Hdisk Husername Htakes Hkey Hrefused.
  unfold environ_takes in Htakes.
  destruct (enc u) eqn:Heu; [discriminate|]. apply negb_true_iff in Htakes.
  rstep. rewrite Hdisk; cbn. rewrite Husername, Hkey; cbn.
  rewrite Heu, Htakes; cbn.
  destruct key as [| | |t| | |]; cbn in Hrefused |- *; try discriminate;
    try (eexists; split; [by rewrite <- app_assoc | by right; left]).
  unfold environ_takes in Hrefused. destruct (enc t) as [msg|] eqn:Het; cbn.
  - eexists; split; [by rewrite <- app_assoc | right; right; eauto].
  - apply negb_false_iff in Hrefused. rewrite Hrefused; cbn.
    eexists; split; [by rewrite <- app_assoc | by left].
Qed.

Lemma half_loaded_credentials_witness :
  exists text,
    try_location Fixtures.utf8 Fixtures.disk_first_half_numeric Fixtures.first_location
      (State Fixtures.env_username_only [])
    = (Returned false,
       State (<[KAGGLE_USERNAME := "bob"]> Fixtures.env_username_only)
             [Opened Fixtures.first_location;
              LogWarning ("Failed to load credentials from "
                          +:+ path_str Fixtures.first_location +:+ ": " +:+ text)])
    /\ (text = "embedded null byte"
        \/ text = "str expected, not " +:+ py_type_name (PInt 5)
        \/ exists t, PInt 5 = PStr t /\ Fixtures.utf8 t = Some text).
Proof.
  apply (half_loaded_credentials Fixtures.utf8 Fixtures.disk_first_half_numeric
           Fixtures.first_location (State Fixtures.env_username_only [])
           [("username", PStr "bob"); ("key", PInt 5)] "bob" (PInt 5)).
  - vm_compute. reflexivity.
  - reflexivity.
  - reflexivity.
  - reflexivity.
  - reflexivity.
Defined.

(** A candidate that writes nothing is gone past with the environment
    as it was. *)
Lemma try_location_writes_nothing (enc : string -> option string)
    (disk : gmap path file) (location : path)
    (s : state) (f : file) :
  disk !! location = Some f ->
  writes_nothing enc (Some f) = true ->
  exists s',
    try_location enc disk location s = (Returned false, s')
    /\ environ s' = environ s.
Proof.
  intros Hdisk Hnothing. rstep. rewrite Hdisk; cbn.
  unfold writes_nothing, env_takes, environ_takes in Hnothing.
  destruct f as [e|e|e|v]; [discriminate| | |]; cbn.
  1, 2: by eexists.
  destruct v; cbn;
    repeat (case_match; simplify_eq/=); by eexists.
Qed.

(** X16. When no candidate leads to an assignment (each is missing,
    cannot be opened or parsed, or holds JSON without both fields or
    with a [username] the environment refuses), the resolver returns and
    the environment is exactly as before. *)
Theorem nothing_loaded_nothing_changed (enc : string -> option string)
    (disk : gmap path file) (home : path)
    (s : state) :
  Forall (fun p => writes_nothing enc (disk !! p) = true) (kaggle_locations home) ->
  exists s',
    load_kaggle_config enc disk home s = (Returned tt, s')
    /\ environ s' = environ s.
Proof.
  intros Hall. unfold load_kaggle_config.
  destruct (_ || _); [|by eexists].
  revert s. induction Hall as [|p rest Hp _ IH]; intros s; [by eexists|].
  rewrite scan_cons. cbv zeta. destruct (disk !! p) as [f|] eqn:Hdisk.
  - destruct (try_location_writes_nothing enc disk p
                (State (environ s) (trace s ++ [Exists p])) f Hdisk Hp)
      as (s2 & Hbody & Henv).
    destruct f; [done| | |]; rewrite Hbody;
      destruct (IH s2) as (s3 & -> & Henv3); eexists; split; try reflexivity;
      by rewrite Henv3, Henv.
  - destruct (IH (State (environ s) (trace s ++ [Exists p]))) as (s3 & -> & Henv3).
    by eexists.
Qed.

Lemma nothing_loaded_nothing_changed_witness :
  exists s',
    load_kaggle_config Fixtures.utf8 Fixtures.disk_nothing_usable Fixtures.home
      (State Fixtures.env_username_only []) = (Returned tt, s')
    /\ environ s' = Fixtures.env_username_only.
Proof.
  apply (nothing_loaded_nothing_changed Fixtures.utf8 Fixtures.disk_nothing_usable Fixtures.home
           (State Fixtures.env_username_only [])).
  repeat constructor; vm_compute; reflexivity.
Defined.

(** X17. The existence test of a candidate stands outside the [try]:
    when [location.exists()] raises on the first candidate the fault
    leaves [load_kaggle_config], the second candidate is never looked
    at, the environment is unchanged, and [main], which calls the
    resolver before its own [try], raises too without starting the
    server. *)
Theorem exists_fault_escapes (enc : string -> option string)
    (disk : gmap path file) (home : path) (s : state)
    (e : exn) (transport : string)
    (mcp_run : string -> gmap string string -> Main.ending)
    (str_format : string -> outcome string) :
  let first := (home ++ [".kaggle"; "kaggle.json"])%list in
  must_scan (environ s) = true ->
  disk !! first = Some (Guarded e) ->
  load_kaggle_config enc disk home s
  = (Raised e, State (environ s) (trace s ++ [Exists first]))
  /\ Main.main enc disk home transport mcp_run str_format s
     = (Raised e, State (environ s) (trace s ++ [Exists first]), []).
Proof.
  cbv zeta. intros Hscan Hdisk.
  assert (Hload : load_kaggle_config enc disk home s
                  = (Raised e, State (environ s)
                                 (trace s ++ [Exists (home ++ [".kaggle"; "kaggle.json"])%list]))).
  { rewrite (must_scan_load _ _ _ _ Hscan). unfold kaggle_locations.
    by rewrite scan_cons, Hdisk. }
  split; [exact Hload|]. unfold Main.main. by rewrite Hload.
Qed.

Lemma exists_fault_escapes_witness :
  load_kaggle_config Fixtures.utf8 Fixtures.disk_first_guarded Fixtures.home (State ∅ [])
  = (Raised (Exn "PermissionError"
       "[Errno 13] Permission denied: '/home/kaggler/.kaggle/kaggle.json'"),
     State ∅ [Exists Fixtures.first_location])
  /\ Main.main Fixtures.utf8 Fixtures.disk_first_guarded Fixtures.home "sse"
       Fixtures.server_stops Fixtures.format_without_arguments (State ∅ [])
     = (Raised (Exn "PermissionError"
          "[Errno 13] Permission denied: '/home/kaggler/.kaggle/kaggle.json'"),
        State ∅ [Exists Fixtures.first_location], []).
Proof.
  apply (exists_fault_escapes Fixtures.utf8 Fixtures.disk_first_guarded Fixtures.home
           (State ∅ [])
           (Exn "PermissionError"
              "[Errno 13] Permission denied: '/home/kaggler/.kaggle/kaggle.json'")
           "sse" Fixtures.server_stops Fixtures.format_without_arguments).
  - reflexivity.
  - vm_compute. reflexivity.
Defined.

(** X18. Resolving twice is resolving once: after a scan that loaded a
    non-empty user name and key, a second call finds both variables set
    and returns at once, on any disk, without a further event. *)
Theorem second_resolution_is_noop (enc : string -> option string)
    (disk disk' : gmap path file) (home home' : path)
    (s : state) (pre : list path) (loc : path) (post : list path)
    (u k : string) :
  must_scan (environ s) = true ->
  kaggle_locations home = (pre ++ loc :: post)%list ->
  Forall (fun p => passed_over enc (disk !! p) = true) pre ->
  credentials_of enc (disk !! loc) = Some (u, k) ->
  u <> "" -> k <> "" ->
  exists s1,
    load_kaggle_config enc disk home s = (Returned tt, s1)
    /\ load_kaggle_config enc disk' home' s1 = (Returned tt, s1).
Proof.
  intros Hscan Hlocs Hpre Hcred Hu Hk.
  destruct (scan_finds enc disk pre loc post u k Hpre Hcred s) as [tr Hfound].
  eexists. split.
  - rewrite (must_scan_load _ _ _ _ Hscan), Hlocs. exact Hfound.
  - unfold load_kaggle_config. cbn [environ].
    rewrite lookup_insert_ne by discriminate.
    rewrite !lookup_insert_eq. by rewrite !env_truthy_set.
Qed.

Lemma second_resolution_is_noop_witness :
  exists s1,
    load_kaggle_config Fixtures.utf8 Fixtures.disk_second_good Fixtures.home (State ∅ [])
    = (Returned tt, s1)
    /\ load_kaggle_config Fixtures.utf8 Fixtures.disk_both_good Fixtures.home s1
       = (Returned tt, s1).
Proof.
  apply (second_resolution_is_noop Fixtures.utf8 Fixtures.disk_second_good
           Fixtures.disk_both_good Fixtures.home Fixtures.home (State ∅ [])
           [Fixtures.first_location] Fixtures.second_location [] "bob" "s3cret").
  - reflexivity.
  - reflexivity.
  - constructor; [vm_compute; reflexivity | constructor].
  - vm_compute. reflexivity.
  - discriminate.
  - discriminate.
Defined.

(** X20. A candidate whose [username] is a str the filesystem encoding
    does not encode is not loaded: the [UnicodeEncodeError] of the first
    assignment ends in a warning that carries its text, neither variable
    is written, the loop goes on to the next candidate, and the
    candidate yields no credentials. *)
Theorem unencodable_username_not_loaded (enc : string -> option string)
    (disk : gmap path file) (location : path) (s : state)
    (entries : list (string * pyval)) (u : string) (key : pyval) (msg : string) :
  disk !! location = Some (Json (PDict entries)) ->
  assoc "username" entries = Some (PStr u) ->
  assoc "key" entries = Some key ->
  enc u = Some msg ->
  try_location enc disk location s
  = (Returned false,
     State (environ s)
           (trace s ++ [Opened location;
                        LogWarning ("Failed to load credentials from "
                                    +:+ path_str location +:+ ": " +:+ msg)]))
  /\ credentials_of enc (disk !! location) = None.
Proof.
  intros Hdisk Husername Hkey Hrefused. split.
  - rstep. rewrite Hdisk; cbn. rewrite Husername, Hkey; cbn.
    rewrite Hrefused; cbn. by rewrite <- app_assoc.
  - unfold credentials_of, environ_takes.
    rewrite Hdisk, Husername, Hkey, Hrefused. by destruct key.
Qed.

Lemma unencodable_username_not_loaded_witness :
  try_location Fixtures.ascii_only Fixtures.disk_first_latin1
    Fixtures.first_location (State ∅ [])
  = (Returned false,
     State ∅
           [Opened Fixtures.first_location;
            LogWarning ("Failed to load credentials from "
                        +:+ path_str Fixtures.first_location +:+ ": "
                        +:+ "'ascii' codec can't encode character '\xe9' "
                        +:+ "in position 3: ordinal not in range(128)")])
  /\ credentials_of Fixtures.ascii_only
       (Fixtures.disk_first_latin1 !! Fixtures.first_location) = None.
Proof.
  apply (unencodable_username_not_loaded Fixtures.ascii_only
           Fixtures.disk_first_latin1 Fixtures.first_location (State ∅ [])
           [("username", PStr Fixtures.rene); ("key", PStr "s3cret")]
           Fixtures.rene (PStr "s3cret")).
  - vm_compute. reflexivity.
  - reflexivity.
  - reflexivity.
  - vm_compute. reflexivity.
Defined.

Lemma has_char_append (c : ascii) (a b : string) :
  has_char c (a +:+ b) = has_char c a || has_char c b.
Proof.
  induction a as [|x a IH]; [reflexivity|].
  change (String x a +:+ b) with (String x (a +:+ b)).
  cbn [has_char]. rewrite IH. by destruct (Ascii.eqb _ _).
Qed.

Lemma has_brace_message (text : string) :
  Main.has_brace ("Error starting Kaggle MCP server: " +:+ text)
  = Main.has_brace text.
Proof. unfold Main.has_brace. by rewrite !has_char_append. Qed.

(** X19. [main] with credentials found in a candidate.  [mcp.run] is
    started in the environment that holds both variables as loaded.
    When it returns, [main] returns 0.  When it raises an [Exception]
    [e], [main] hands ["Error starting Kaggle MCP server: " + str(e)] to
    loguru with a keyword argument, so the text goes through
    [str.format]: without brace in [str(e)] it is logged as it is and
    [main] returns 1; with a brace the text logged is what [str.format]
    returns, and when [str.format] raises, that fault leaves [main] and
    nothing is logged.  A fault that is not an [Exception] leaves [main]
    as it is. *)
Theorem main_serves_with_loaded_credentials (enc : string -> option string)
    (disk : gmap path file) (home : path)
    (transport : string) (mcp_run : string -> gmap string string -> Main.ending)
    (str_format : string -> outcome string)
    (s : state) (pre : list path) (loc : path) (post : list path) (u k : string) :
  must_scan (environ s) = true ->
  kaggle_locations home = (pre ++ loc :: post)%list ->
  Forall (fun p => passed_over enc (disk !! p) = true) pre ->
  credentials_of enc (disk !! loc) = Some (u, k) ->
  let env' := <[KAGGLE_KEY := k]> (<[KAGGLE_USERNAME := u]> (environ s)) in
  let started :=
    [Main.Starting ("Starting Kaggle MCP server with " +:+ transport +:+ " transport");
     Main.Running transport env'] in
  let run := Main.main enc disk home transport mcp_run str_format s in
  exists s1,
    load_kaggle_config enc disk home s = (Returned tt, s1)
    /\ environ s1 = env'
    /\ match mcp_run transport env' with
       | Main.Stopped => run = (Returned 0%Z, s1, started)
       | Main.Fault e =>
           let message := "Error starting Kaggle MCP server: " +:+ exn_text e in
           (Main.has_brace (exn_text e) = false ->
            run = (Returned 1%Z, s1, (started ++ [Main.Failed message])%list))
           /\ (Main.has_brace (exn_text e) = true ->
               match str_format message with
               | Returned text =>
                   run = (Returned 1%Z, s1, (started ++ [Main.Failed text])%list)
               | Raised e' => run = (Raised e', s1, started)
               end)
       | Main.Interrupted e => run = (Raised e, s1, started)
       end.
Proof.
  intros Hscan Hlocs Hpre Hcred env' started run.
  destruct (scan_finds enc disk pre loc post u k Hpre Hcred s) as [tr Hfound].
  assert (Hload : load_kaggle_config enc disk home s
                  = (Returned tt, State env' (trace s ++ Exists (hd loc pre) :: tr))).
  { by rewrite (must_scan_load _ _ _ _ Hscan), Hlocs. }
  eexists. split; [exact Hload|]. split; [reflexivity|].
  unfold run, Main.main. rewrite Hload. cbn [environ]. fold started.
  destruct (mcp_run transport env') as [|e|e]; [reflexivity| |reflexivity].
  cbv zeta. unfold Main.logger_error. rewrite has_brace_message.
  split; intros ->; [reflexivity|].
  by destruct (str_format _).
Qed.

Lemma main_serves_with_loaded_credentials_witness :
  Main.main Fixtures.utf8 Fixtures.disk_second_good Fixtures.home "stdio"
    Fixtures.server_fails_with_braces Fixtures.format_without_arguments (State ∅ [])
  = (Raised (Exn "IndexError"
               "Replacement index 0 out of range for positional args tuple"),
     (load_kaggle_config Fixtures.utf8 Fixtures.disk_second_good Fixtures.home
        (State ∅ [])).2,
     [Main.Starting "Starting Kaggle MCP server with stdio transport";
      Main.Running "stdio"
        (<[KAGGLE_KEY := "s3cret"]> (<[KAGGLE_USERNAME := "bob"]> ∅))]).
Proof.
  destruct (main_serves_with_loaded_credentials Fixtures.utf8
              Fixtures.disk_second_good Fixtures.home "stdio"
              Fixtures.server_fails_with_braces Fixtures.format_without_arguments
              (State ∅ []) [Fixtures.first_location] Fixtures.second_location []
              "bob" "s3cret")
    as (s1 & Hload & _ & Hrun).
  - reflexivity.
  - reflexivity.
  - constructor; [vm_compute; reflexivity | constructor].
  - vm_compute. reflexivity.
  - rewrite Hload. apply (proj2 Hrun). reflexivity.
Defined.

End ServerMore.
